(** * Worker (packages/worker/src/index.ts): task consumption, control
    signals and result publication, modelled over a shallow embedding.

    The JSON layer models the built-in [JSON.parse] and the JavaScript
    property access / truthiness / string conversion the worker relies on.
    The worker itself is modelled in a small writer+exception monad: the
    writer records the observable actions (publications on the output
    stream, enqueued tasks, acknowledgements, calls into the agent runtime,
    log lines), the exception part models thrown errors and rejected
    promises. *)

From Stdlib Require Import String Ascii List Bool Arith ZArith Lia.
Import ListNotations.
Open Scope string_scope.
Set Warnings "-register-all".

(** ** JSON values, as produced by [JSON.parse].  Numbers keep their lexeme. *)

Inductive json : Type :=
| JNull
| JBool (b : bool)
| JNum (lexeme : string)
| JStr (s : string)
| JArr (xs : list json)
| JObj (kvs : list (string * json)).

Module Json.
Local Open Scope list_scope.

(** The double quote character. *)
Definition dquote : ascii := ascii_of_nat 34.

Definition is_ws (c : ascii) : bool :=
  let n := nat_of_ascii c in
  Nat.eqb n 32 || Nat.eqb n 9 || Nat.eqb n 10 || Nat.eqb n 13.

Definition is_digit (c : ascii) : bool :=
  let n := nat_of_ascii c in Nat.leb 48 n && Nat.leb n 57.

Definition hex_val (c : ascii) : option nat :=
  let n := nat_of_ascii c in
  if Nat.leb 48 n && Nat.leb n 57 then Some (n - 48)
  else if Nat.leb 65 n && Nat.leb n 70 then Some (n - 55)
  else if Nat.leb 97 n && Nat.leb n 102 then Some (n - 87)
  else None.

Fixpoint skip_ws (s : list ascii) : list ascii :=
  match s with
  | c :: r => if is_ws c then skip_ws r else s
  | [] => []
  end.

(** UTF-8 encoding of a code point written as [\uXXXX] escapes.  A lone
    surrogate (which a JavaScript string keeps as one UTF-16 unit) gets the
    three-byte form of its value. *)
Definition utf8_of (cp : N) : list ascii :=
  if (cp <? 128)%N then [ascii_of_N cp]
  else if (cp <? 2048)%N then
    [ascii_of_N (192 + cp / 64); ascii_of_N (128 + cp mod 64)]%N
  else if (cp <? 65536)%N then
    [ascii_of_N (224 + cp / 4096);
     ascii_of_N (128 + (cp / 64) mod 64);
     ascii_of_N (128 + cp mod 64)]%N
  else
    [ascii_of_N (240 + cp / 262144);
     ascii_of_N (128 + (cp / 4096) mod 64);
     ascii_of_N (128 + (cp / 64) mod 64);
     ascii_of_N (128 + cp mod 64)]%N.

(** The four hex digits of a [\u] escape. *)
Definition hex4 (h1 h2 h3 h4 : ascii) : option N :=
  match hex_val h1, hex_val h2, hex_val h3, hex_val h4 with
  | Some a, Some b, Some c, Some d =>
    Some (((N.of_nat a * 16 + N.of_nat b) * 16 + N.of_nat c) * 16 + N.of_nat d)%N
  | _, _, _, _ => None
  end.

Definition is_high_surrogate (u : N) : bool := (55296 <=? u)%N && (u <=? 56319)%N.
Definition is_low_surrogate (u : N) : bool := (56320 <=? u)%N && (u <=? 57343)%N.

Definition simple_escape (e : ascii) : option ascii :=
  if (e =? dquote)%char then Some dquote
  else if (e =? "\")%char then Some "\"%char
  else if (e =? "/")%char then Some "/"%char
  else if (e =? "b")%char then Some (ascii_of_nat 8)
  else if (e =? "f")%char then Some (ascii_of_nat 12)
  else if (e =? "n")%char then Some (ascii_of_nat 10)
  else if (e =? "r")%char then Some (ascii_of_nat 13)
  else if (e =? "t")%char then Some (ascii_of_nat 9)
  else None.

(** Body of a string literal, after the opening quote; the accumulator is
    reversed. *)
Fixpoint string_body (s : list ascii) (acc : list ascii)
  : option (list ascii * list ascii) :=
  match s with
  | [] => None
  | c :: r =>
    if (c =? dquote)%char then Some (rev acc, r)
    else if (c =? "\")%char then
      match r with
      | [] => None
      | e :: r1 =>
        match simple_escape e with
        | Some d => string_body r1 (d :: acc)
        | None =>
          if (e =? "u")%char then
            match r1 with
            | h1 :: h2 :: h3 :: h4 :: r2 =>
              match hex4 h1 h2 h3 h4 with
              | Some u =>
                if is_high_surrogate u then
                  (* a high surrogate followed by an escaped low surrogate
                     is one character *)
                  match r2 with
                  | b :: v :: l1 :: l2 :: l3 :: l4 :: r3 =>
                    match hex4 l1 l2 l3 l4 with
                    | Some w =>
                      if (b =? "\")%char && (v =? "u")%char && is_low_surrogate w then
                        string_body r3
                          (rev (utf8_of (65536 + (u - 55296) * 1024 + (w - 56320))%N) ++ acc)
                      else string_body r2 (rev (utf8_of u) ++ acc)
                    | None => string_body r2 (rev (utf8_of u) ++ acc)
                    end
                  | _ => string_body r2 (rev (utf8_of u) ++ acc)
                  end
                else string_body r2 (rev (utf8_of u) ++ acc)
              | None => None
              end
            | _ => None
            end
          else None
        end
      end
    else if Nat.ltb (nat_of_ascii c) 32 then None
    else string_body r (c :: acc)
  end.

Fixpoint digits (s : list ascii) : list ascii * list ascii :=
  match s with
  | c :: r => if is_digit c then let '(d, r') := digits r in (c :: d, r') else ([], s)
  | [] => ([], [])
  end.

(** [int frac? exp?] after an optional minus sign. *)
Definition number_rest (s : list ascii) : option (list ascii * list ascii) :=
  let int_part :=
    match s with
    | c :: r =>
      if (c =? "0")%char then Some ([c], r)
      else if is_digit c then let '(d, r') := digits r in Some (c :: d, r')
      else None
    | [] => None
    end in
  match int_part with
  | None => None
  | Some (i, r1) =>
    let frac :=
      match r1 with
      | c :: r => if (c =? ".")%char then
                    match digits r with
                    | ([], _) => None
                    | (d, r') => Some (c :: d, r')
                    end
                  else Some ([], r1)
      | [] => Some ([], r1)
      end in
    match frac with
    | None => None
    | Some (f, r2) =>
      let exp :=
        match r2 with
        | c :: r =>
          if (c =? "e")%char || (c =? "E")%char then
            let '(sg, r') :=
              match r with
              | c' :: r'' => if (c' =? "+")%char || (c' =? "-")%char then ([c'], r'') else ([], r)
              | [] => ([], r)
              end in
            match digits r' with
            | ([], _) => None
            | (d, r'') => Some (c :: sg ++ d, r'')
            end
          else Some ([], r2)
        | [] => Some ([], r2)
        end in
      match exp with
      | None => None
      | Some (e, r3) => Some (i ++ f ++ e, r3)
      end
    end
  end.

Definition number (s : list ascii) : option (list ascii * list ascii) :=
  match s with
  | c :: r => if (c =? "-")%char then
                match number_rest r with Some (n, r') => Some (c :: n, r') | None => None end
              else number_rest s
  | [] => None
  end.

Fixpoint prefix (p s : list ascii) : option (list ascii) :=
  match p, s with
  | [], _ => Some s
  | a :: p', b :: s' => if (a =? b)%char then prefix p' s' else None
  | _ :: _, [] => None
  end.

(** Recursive descent, with [fuel] bounding the nesting of calls (each call
    consumes at least one character, so [S (length s)] is enough). *)
Fixpoint value (fuel : nat) (s : list ascii) : option (json * list ascii) :=
  match fuel with
  | O => None
  | S f =>
    match skip_ws s with
    | [] => None
    | c :: r =>
      if (c =? "{")%char then
        match skip_ws r with
        | c' :: r' => if (c' =? "}")%char then Some (JObj [], r') else members f r []
        | [] => None
        end
      else if (c =? "[")%char then
        match skip_ws r with
        | c' :: r' => if (c' =? "]")%char then Some (JArr [], r') else elements f r []
        | [] => None
        end
      else if (c =? dquote)%char then
        match string_body r [] with
        | Some (str, r') => Some (JStr (string_of_list_ascii str), r')
        | None => None
        end
      else
        match prefix (list_ascii_of_string "true") (c :: r) with
        | Some r' => Some (JBool true, r')
        | None =>
        match prefix (list_ascii_of_string "false") (c :: r) with
        | Some r' => Some (JBool false, r')
        | None =>
        match prefix (list_ascii_of_string "null") (c :: r) with
        | Some r' => Some (JNull, r')
        | None =>
          match number (c :: r) with
          | Some (n, r') => Some (JNum (string_of_list_ascii n), r')
          | None => None
          end
        end end end
    end
  end
with members (fuel : nat) (s : list ascii) (acc : list (string * json))
  : option (json * list ascii) :=
  match fuel with
  | O => None
  | S f =>
    match skip_ws s with
    | c :: r =>
      if (c =? dquote)%char then
        match string_body r [] with
        | Some (k, r1) =>
          match skip_ws r1 with
          | c1 :: r2 =>
            if (c1 =? ":")%char then
              match value f r2 with
              | Some (v, r3) =>
                match skip_ws r3 with
                | c3 :: r4 =>
                  if (c3 =? ",")%char then members f r4 ((string_of_list_ascii k, v) :: acc)
                  else if (c3 =? "}")%char then
                    Some (JObj (rev ((string_of_list_ascii k, v) :: acc)), r4)
                  else None
                | [] => None
                end
              | None => None
              end
            else None
          | [] => None
          end
        | None => None
        end
      else None
    | [] => None
    end
  end
with elements (fuel : nat) (s : list ascii) (acc : list json)
  : option (json * list ascii) :=
  match fuel with
  | O => None
  | S f =>
    match value f s with
    | Some (v, r) =>
      match skip_ws r with
      | c :: r' =>
        if (c =? ",")%char then elements f r' (v :: acc)
        else if (c =? "]")%char then Some (JArr (rev (v :: acc)), r')
        else None
      | [] => None
      end
    | None => None
    end
  end.

End Json.

(** [JSON.parse]: [None] when it throws a [SyntaxError]. *)
Definition JSON_parse (text : string) : option json :=
  let s := list_ascii_of_string text in
  match Json.value (S (length s)) s with
  | Some (v, r) => match Json.skip_ws r with [] => Some v | _ => None end
  | None => None
  end.


(** ** JavaScript semantics used by the worker *)

(** A thrown value; every error the worker inspects is read through its
    [message] property. *)
Record Exn : Type := { message : string }.

Definition type_error : Exn := {| message := "TypeError" |}.
Definition syntax_error : Exn := {| message := "SyntaxError" |}.

Module JS.

(** [JSON.parse] keeps the last occurrence of a duplicated key. *)
Definition lookup_last (k : string) (kvs : list (string * json)) : option json :=
  fold_left (fun acc kv => if String.eqb (fst kv) k then Some (snd kv) else acc) kvs None.

(** The decimal value of a number lexeme [-?int(.frac)?((e|E)(+|-)?exp)?]:
    [mantissa] reads its digits up to the exponent mark as an integer and
    counts those after the point; [exponent] reads the signed exponent. *)
Definition digit_val (c : ascii) : Z := Z.of_nat (nat_of_ascii c - 48).

Fixpoint mantissa (s : list ascii) (m frac : Z) (dot : bool) : Z * Z * list ascii :=
  match s with
  | [] => (m, frac, [])
  | c :: r =>
    if (c =? "e")%char || (c =? "E")%char then (m, frac, r)
    else if (c =? ".")%char then mantissa r m frac true
    else if Json.is_digit c then
      mantissa r (10 * m + digit_val c)%Z (if dot then (frac + 1)%Z else frac) dot
    else mantissa r m frac dot
  end.

Fixpoint exponent (s : list ascii) (e : Z) (neg : bool) : Z :=
  match s with
  | [] => if neg then (- e)%Z else e
  | c :: r =>
    if (c =? "-")%char then exponent r e true
    else if Json.is_digit c then exponent r (10 * e + digit_val c)%Z neg
    else exponent r e neg
  end.

(** Whether [JSON.parse] reads the lexeme as (plus or minus) zero.  The
    value [m * 10^k] is rounded to the nearest double, ties to even (as V8
    does): it becomes 0 exactly when it is at most half the smallest
    subnormal, 2^-1075, i.e. when [m * 2^1075 <= 10^-k].  So [0], [-0.0]
    and [1e-400] denote zero, [1e400] (Infinity) does not. *)
Definition number_is_zero (lex : string) : bool :=
  let '(m, frac, rest) := mantissa (list_ascii_of_string lex) 0%Z 0%Z false in
  let k := (exponent rest 0%Z false - frac)%Z in
  if (m =? 0)%Z then true
  else if (k <? 0)%Z then (m * 2 ^ 1075 <=? 10 ^ (- k))%Z
  else false.

(** JavaScript truthiness; [None] is [undefined]. *)
Definition truthy (v : option json) : bool :=
  match v with
  | None => false
  | Some JNull => false
  | Some (JBool b) => b
  | Some (JNum lex) => negb (number_is_zero lex)
  | Some (JStr s) => negb (String.eqb s "")
  | Some (JArr _) => true
  | Some (JObj _) => true
  end.

Definition has_key (k : string) (kvs : list (string * json)) : bool :=
  existsb (fun kv => String.eqb (fst kv) k) kvs.

(** String conversion of a template-literal substitution [`${v}`].  An
    object with an own (hence non-callable) [toString] property has no
    primitive value and the conversion throws a [TypeError] ([None]);
    arrays are joined with commas, [null] elements giving the empty string.
    Numbers are rendered by their lexeme, which is what JavaScript prints
    only for a lexeme already in its canonical form (42 or -1.5, but not
    1.0, 1e2 or 0.10); no property below states a log line rendering a
    number, and rendering a number never throws in either. *)
Fixpoint to_string (v : json) : option string :=
  match v with
  | JNull => Some "null"
  | JBool b => Some (if b then "true" else "false")
  | JNum lex => Some lex
  | JStr s => Some s
  | JArr xs =>
    let fix join (xs : list json) (first : bool) : option string :=
      match xs with
      | [] => Some ""
      | x :: r =>
        match (match x with JNull => Some "" | _ => to_string x end), join r false with
        | Some a, Some b => Some ((if first then "" else ",") ++ a ++ b)
        | _, _ => None
        end
      end in
    join xs true
  | JObj kvs => if has_key "toString" kvs then None else Some "[object Object]"
  end.

Definition is_str (v : option json) (s : string) : bool :=
  match v with Some (JStr s') => String.eqb s' s | _ => false end.

End JS.

(** ** Messages of the agent runtime, as seen by [session.subscribe] *)

Record ContentBlock : Type := { block_type : string; text : string }.

Record AgentMessage : Type := { role : string; content : list ContentBlock }.

(** [other_event] stands for every other [event.type] (agent_start,
    turn_end, message_update, tool_execution_update, ...). *)
Inductive AgentEvent : Type :=
| message_start (m : AgentMessage)
| message_end (m : AgentMessage)
| tool_execution_start (toolName : string) (args : json)
| tool_execution_end (toolName : string) (result : json) (isError : bool)
| other_event (type : string).

(** ** Records written to the output stream ([WorkerResponse]) *)

Inductive ProgressData : Type :=
| ToolStartData (tool : string) (args : json)
| ToolEndData (tool : string) (result : json) (isError : bool).

Inductive WorkerResponse : Type :=
| Progress (id : option json) (event : string) (data : option ProgressData)
| Result (id : option json) (status : string) (response : option string)
         (error : option string).

(** ** Observable actions.  [Publish], [Enqueue] and [Ack] are recorded when
    the Redis command took effect; the calls into the agent runtime
    ([PromptCall], [AbortCall], [SteerCall], [NewSessionCall]) are recorded
    when they are made, whatever their outcome. *)
Inductive Action : Type :=
| Log (line : string)
| Publish (r : WorkerResponse)
| Enqueue (payload : json)
| Ack (messageId : string)
| PromptCall (prompt : option json)
| AbortCall
| SteerCall (msg : option json)
| NewSessionCall.

(** ** Writer + exception monad: the actions performed, and either a value or
    the exception thrown (a rejected promise when awaited). *)
Definition M (A : Type) : Type := (list Action * (A + Exn))%type.

Definition ret {A} (a : A) : M A := ([], inl a).
Definition throw {A} (e : Exn) : M A := ([], inr e).

Definition bind {A B} (m : M A) (f : A -> M B) : M B :=
  let '(t, r) := m in
  match r with
  | inl a => let '(t', r') := f a in ((t ++ t')%list, r')
  | inr e => (t, inr e)
  end.

Notation "x <- m ;; k" := (bind m (fun x => k))
  (at level 61, m at next level, right associativity).
Notation "m ;; k" := (bind m (fun _ => k))
  (at level 61, right associativity).

Definition emit (a : Action) : M unit := ([a], inl tt).

Definition emits (acts : list Action) : M unit := (acts, inl tt).

(** [try { m } catch (e) { h e }] *)
Definition try_catch {A} (m : M A) (h : Exn -> M A) : M A :=
  let '(t, r) := m in
  match r with
  | inl a => (t, inl a)
  | inr e => let '(t', r') := h e in ((t ++ t')%list, r')
  end.

(** [try { m } finally { fin }]: an exception of [fin] replaces the outcome
    of [m]. *)
Definition try_finally {A} (m : M A) (fin : M unit) : M A :=
  let '(t, r) := m in
  let '(t', r') := fin in
  ((t ++ t')%list, match r' with inl _ => r | inr e => inr e end).

(** An external call that is made, then may reject. *)
Definition call (a : Action) (err : option Exn) : M unit :=
  match err with None => ([a], inl tt) | Some e => ([a], inr e) end.

(** A Redis write that, when it fails, has no effect. *)
Definition durable (a : Action) (err : option Exn) : M unit :=
  match err with None => ([a], inl tt) | Some e => ([], inr e) end.

(** Property access [v.k]: throws on [null], [undefined] for a missing
    property and for non-objects. *)
Definition get_prop (v : json) (k : string) : M (option json) :=
  match v with
  | JNull => throw type_error
  | JObj kvs => ret (JS.lookup_last k kvs)
  | _ => ret None
  end.

(** Template substitution [`${v}`] ([undefined] renders as "undefined"). *)
Definition template (v : option json) : M string :=
  match v with
  | None => ret "undefined"
  | Some x => match JS.to_string x with Some s => ret s | None => throw type_error end
  end.

(** [`${v || d}`] *)
Definition template_or (v : option json) (d : string) : M string :=
  if JS.truthy v then template v else ret d.

Definition trace {A} (m : M A) : list Action := fst m.
Definition outcome {A} (m : M A) : A + Exn := snd m.

(** ** The environment of one task: what the agent runtime and Redis do. *)
Record TaskEnv : Type := {
  prompt_events : list AgentEvent;            (* emitted during [session.prompt] *)
  prompt_error : option Exn;                  (* rejection of [session.prompt] *)
  publish_error : WorkerResponse -> option Exn; (* failure of [xadd] on the output stream *)
  xack_error : option Exn                     (* failure of [xack] *)
}.

Module Worker.

Definition inputQueue : string := "agent_in".
Definition outputQueue : string := "agent_out".

(** [redisPublisher.xadd(outputQueue, "*", "payload", JSON.stringify(r))], awaited. *)
Definition publish (env : TaskEnv) (r : WorkerResponse) : M unit :=
  durable (Publish r) (publish_error env r).

(** The same, not awaited: [.catch] logs the failure. *)
Definition publish_progress (env : TaskEnv) (r : WorkerResponse) : list Action :=
  match publish_error env r with
  | None => [Publish r]
  | Some _ => [Log "Failed to publish progress event:"]
  end.

(** [for (const block of event.message.content) if (block.type === "text") responseText += block.text] *)
Definition add_text_blocks (responseText : string) (blocks : list ContentBlock) : string :=
  fold_left (fun acc block =>
               if String.eqb (block_type block) "text" then acc ++ text block else acc)
            blocks responseText.

(** Collect response text. *)
Definition collect (responseText : string) (event : AgentEvent) : string :=
  match event with
  | message_end m =>
    if String.eqb (role m) "assistant" then add_text_blocks responseText (content m)
    else responseText
  | _ => responseText
  end.

(** Emit progress events: the [switch (event.type)]. *)
Definition progress_of (id : option json) (event : AgentEvent) : option WorkerResponse :=
  match event with
  | message_start m =>
    if String.eqb (role m) "assistant" then Some (Progress id "llm_start" None) else None
  | message_end m =>
    if String.eqb (role m) "assistant" then Some (Progress id "llm_end" None) else None
  | tool_execution_start toolName args =>
    Some (Progress id "tool_start" (Some (ToolStartData toolName args)))
  | tool_execution_end toolName result isError =>
    Some (Progress id "tool_end" (Some (ToolEndData toolName result isError)))
  | other_event _ => None
  end.

(** The callback given to [session.subscribe], for one event. *)
Definition on_event (env : TaskEnv) (id : option json) (responseText : string)
    (event : AgentEvent) : string * list Action :=
  (collect responseText event,
   match progress_of id event with
   | Some progress => publish_progress env progress
   | None => []
   end).

Fixpoint run_events (env : TaskEnv) (id : option json) (responseText : string)
    (events : list AgentEvent) : string * list Action :=
  match events with
  | [] => (responseText, [])
  | ev :: rest =>
    let '(rt, acts) := on_event env id responseText ev in
    let '(rt', acts') := run_events env id rt rest in
    (rt', acts ++ acts')%list
  end.

(** [err.message === "Aborted" ? "Task aborted by user" : err.message] *)
Definition error_text (msg : string) : string :=
  if String.eqb msg "Aborted" then "Task aborted by user" else msg.

(** The task's [try { ... } catch { ... } finally { ... }] (index.ts, from
    [session.prompt(prompt)] to [redis.xack]); the subscription is made
    before the prompt, so every event emitted during it is seen. *)
Definition run_task (env : TaskEnv) (messageId : string) (id prompt : option json)
  : M unit :=
  try_finally
    (try_catch
       (emit (PromptCall prompt);;
        let '(responseText, acts) := run_events env id "" (prompt_events env) in
        emits acts;;
        match prompt_error env with
        | Some e => throw e
        | None =>
          s <- template id;;
          emit (Log ("Task " ++ s ++ " completed."));;
          publish env (Result id "success" (Some responseText) None)
        end)
       (fun err =>
          s <- template id;;
          (if String.eqb (message err) "Aborted"
           then emit (Log ("Task " ++ s ++ " was aborted by user."))
           else emit (Log ("Error processing task " ++ s ++ ":")));;
          publish env (Result id "error" None (Some (error_text (message err))))))
    (durable (Ack messageId) (xack_error env)).

(** From [log(`Processing task ...`)] on. *)
Definition dispatch (env : TaskEnv) (messageId : string) (id prompt : option json)
  : M unit :=
  s1 <- template_or id "";;
  s2 <- template prompt;;
  emit (Log ("Processing task " ++ s1 ++ ": " ++ s2));;
  run_task env messageId id prompt.

(** The [for (let i = 0; i < fields.length; i += 2)] scan for the payload
    field; [None] is [undefined] (a trailing "payload" name with no value). *)
Fixpoint find_payload (fields : list string) : option string :=
  match fields with
  | [] => Some ""
  | f :: rest =>
    if String.eqb f "payload" then
      match rest with v :: _ => Some v | [] => None end
    else
      match rest with _ :: rest' => find_payload rest' | [] => Some "" end
  end.

(** One message returned by [XREADGROUP]: the body of the [while] loop after
    [const [messageId, fields] = messages[0]]. *)
Definition reliable_body (env : TaskEnv) (messageId : string) (fields : list string)
  : M unit :=
  let rawMessage := find_payload fields in
  match rawMessage with
  | Some raw =>
    if JS.truthy (Some (JStr raw)) then
      emit (Log ("Received message " ++ messageId ++ ": " ++ raw));;
      match JSON_parse raw with
      | None => emit (Log "Failed to parse message as JSON:")
      | Some payload =>
        id <- get_prop payload "id";;
        prompt <- get_prop payload "prompt";;
        if negb (JS.truthy prompt) then emit (Log "Message missing prompt:")
        else dispatch env messageId id prompt
      end
    else
      emit (Log ("Received message " ++ messageId ++ " with no payload fields"));;
      durable (Ack messageId) (xack_error env)
  | None =>
    emit (Log ("Received message " ++ messageId ++ " with no payload fields"));;
    durable (Ack messageId) (xack_error env)
  end.

(** The loop's outer [try ... catch (err) { error("Worker loop error:", err); ... }]. *)
Definition reliable_iteration (env : TaskEnv) (messageId : string) (fields : list string)
  : M unit :=
  try_catch (reliable_body env messageId fields)
            (fun _ => emit (Log "Worker loop error:")).

End Worker.

(** ** The control-signal handler ([redisSubscriber.on("message", ...)]) *)

(** What the agent runtime and Redis do with the handler's calls. *)
Record ControlEnv : Type := {
  abort_error : option Exn;        (* [agent.abort()] throwing *)
  steer_error : option Exn;        (* rejection of [session.steer] *)
  new_session_error : option Exn;  (* rejection of [session.newSession] *)
  enqueue_error : option Exn       (* failure of the write onto the input queue *)
}.

Module Control.

(** The greeting prompt of index.ts (reliable mode) and of the best-effort
    variant (src/unnamed/part_000, second [main]). *)
Definition greeting_reliable : string := "向用户发出你的问候".
Definition greeting_best_effort : string := "发出你的问候。".

(** [{ id: taskId, source: "internal", prompt }]; [JSON.stringify] drops an
    [undefined] id. *)
Definition greeting_payload (taskId : option json) (greeting : string) : json :=
  JObj ((match taskId with Some v => [("id", v)] | None => [] end)
        ++ [("source", JStr "internal"); ("prompt", JStr greeting)])%list.

(** The handler's [try] block, for the current value [currentTaskId] of the
    slot and the raw signal.  The two variants differ only in the greeting prompt and in
    the Redis command that enqueues it ([xadd] or [rpush]), both modelled by
    [Enqueue]. *)
Definition handler_body (greeting : string) (env : ControlEnv)
    (currentTaskId : option json) (rawSignal : string) : M unit :=
  match JSON_parse rawSignal with
  | None => throw syntax_error
  | Some signal =>
    command <- get_prop signal "command";;
    if JS.is_str command "stop" then
      s <- template_or currentTaskId "none";;
      emit (Log ("[Interrupt] Received stop for current task (" ++ s ++ ")"));;
      call AbortCall (abort_error env)
    else
      msg <- (if JS.is_str command "steer" then get_prop signal "message" else ret None);;
      if JS.is_str command "steer" && JS.truthy msg then
        s <- template_or currentTaskId "none";;
        m <- template msg;;
        emit (Log ("[Steer] Received steer for current task (" ++ s ++ "): " ++ m));;
        call (SteerCall msg) (steer_error env)
      else if JS.is_str command "reset" then
        emit (Log "[Reset] Received reset command for current session");;
        call NewSessionCall (new_session_error env);;
        taskId <- get_prop signal "id";;
        durable (Enqueue (greeting_payload taskId greeting)) (enqueue_error env)
      else ret tt
  end.

(** Its [catch (_e)] clause. *)
Definition handler_catch (rawSignal : string) (_e : Exn) : M unit :=
  emit (Log ("[Control] Failed to parse control signal as JSON: " ++ rawSignal)).

Definition handler (greeting : string) (env : ControlEnv)
    (currentTaskId : option json) (rawSignal : string) : M unit :=
  try_catch (handler_body greeting env currentTaskId rawSignal) (handler_catch rawSignal).

Definition handler_reliable := handler greeting_reliable.
Definition handler_best_effort := handler greeting_best_effort.

End Control.

(** ** Startup: the consumer group (index.ts, before the loop) *)

Module Startup.

(** [err.message.includes(sub)] *)
Definition includes (msg sub : string) : bool :=
  match String.index 0 sub msg with Some _ => true | None => false end.

(** [redis.xgroup("CREATE", inputQueue, consumerGroup, "$", "MKSTREAM")] in
    its [try/catch]; [xgroup_error] is the rejection of the command. *)
Definition ensure_group (xgroup_error : option Exn) : M unit :=
  try_catch
    (match xgroup_error with
     | None => emit (Log "Created consumer group agent-group for stream agent_in")
     | Some e => throw e
     end)
    (fun err =>
       if negb (includes (message err) "BUSYGROUP")
       then emit (Log ("Failed to create consumer group: " ++ message err))
       else ret tt).

End Startup.

(** ** The best-effort workers of src/unnamed/part_000: [BLPOP] from a list,
    results with [RPUSH], no acknowledgement. *)

Module BestEffort.

(** The task's [try/catch/finally]; the [finally] only unsubscribes and
    clears the slot.  [dflt] is the text logged for a falsy id: "unknown"
    in the first [main], the empty string in the second. *)
Definition run_task (dflt : string) (env : TaskEnv) (id prompt : option json) : M unit :=
  try_catch
    (emit (PromptCall prompt);;
     let '(responseText, acts) := Worker.run_events env id "" (prompt_events env) in
     emits acts;;
     match prompt_error env with
     | Some e => throw e
     | None =>
       s <- template_or id dflt;;
       emit (Log ("Task " ++ s ++ " completed."));;
       Worker.publish env (Result id "success" (Some responseText) None)
     end)
    (fun err =>
       s <- template_or id dflt;;
       (if String.eqb (message err) "Aborted"
        then emit (Log ("Task " ++ s ++ " was aborted by user."))
        else emit (Log ("Error processing task " ++ s ++ ":")));;
       Worker.publish env (Result id "error" None (Some (Worker.error_text (message err))))).

(** Body of the first [main]'s loop after [BLPOP] returned [rawMessage];
    [reset_error] is the rejection of [session.newSession()]. *)
Definition body_v1 (env : TaskEnv) (reset_error : option Exn) (rawMessage : string)
  : M unit :=
  emit (Log ("Received message: " ++ rawMessage));;
  match JSON_parse rawMessage with
  | None => emit (Log "Failed to parse message as JSON:")
  | Some payload =>
    id <- get_prop payload "id";;
    prompt <- get_prop payload "prompt";;
    reset <- get_prop payload "reset";;
    (if JS.truthy reset then
       s <- template_or id "unknown";;
       emit (Log ("Resetting agent context for task " ++ s));;
       call NewSessionCall reset_error
     else ret tt);;
    if negb (JS.truthy prompt) then
      (if JS.truthy reset then ret tt else emit (Log "Message missing prompt:"))
    else
      s1 <- template_or id "unknown";;
      s2 <- template prompt;;
      emit (Log ("Processing task " ++ s1 ++ ": " ++ s2));;
      run_task "unknown" env id prompt
  end.

(** Body of the second [main]'s loop after [BLPOP] returned [rawMessage]. *)
Definition body_v2 (env : TaskEnv) (rawMessage : string) : M unit :=
  emit (Log ("Received message: " ++ rawMessage));;
  match JSON_parse rawMessage with
  | None => emit (Log "Failed to parse message as JSON:")
  | Some payload =>
    id <- get_prop payload "id";;
    prompt <- get_prop payload "prompt";;
    if negb (JS.truthy prompt) then emit (Log "Message missing prompt:")
    else
      s1 <- template_or id "";;
      s2 <- template prompt;;
      emit (Log ("Processing task " ++ s1 ++ ": " ++ s2));;
      run_task "" env id prompt
  end.

(** The loop's outer [try/catch]. *)
Definition iteration (body : M unit) : M unit :=
  try_catch body (fun _ => emit (Log "Worker loop error:")).

(** The first [main]'s control handler: no reset command, and a plain
    [STOP] (not JSON) aborts from the [catch] block. *)
Definition legacy_handler (env : ControlEnv) (currentTaskId : option json)
    (rawSignal : string) : M unit :=
  try_catch
    (match JSON_parse rawSignal with
     | None => throw syntax_error
     | Some signal =>
       command <- get_prop signal "command";;
       if JS.is_str command "stop" then
         s <- template_or currentTaskId "none";;
         emit (Log ("[Interrupt] Received stop for current task (" ++ s ++ ")"));;
         call AbortCall (abort_error env)
       else
         msg <- (if JS.is_str command "steer" then get_prop signal "message" else ret None);;
         if JS.is_str command "steer" && JS.truthy msg then
           s <- template_or currentTaskId "none";;
           m <- template msg;;
           emit (Log ("[Steer] Received steer for current task (" ++ s ++ "): " ++ m));;
           call (SteerCall msg) (steer_error env)
         else ret tt
     end)
    (fun _ =>
       if String.eqb rawSignal "STOP" then
         emit (Log "[Interrupt] Received plain STOP");;
         call AbortCall (abort_error env)
       else ret tt).

End BestEffort.

(** The field list of a stream entry, from its (name, value) pairs. *)
Fixpoint flatten_fields (kvs : list (string * string)) : list string :=
  match kvs with
  | [] => []
  | (k, v) :: rest => k :: v :: flatten_fields rest
  end.

(** No control character (code below 32): the strings [JSON.stringify]
    writes without a [\u] escape. *)
Definition no_ctrl (s : string) : Prop :=
  forall c, In c (list_ascii_of_string s) -> 32 <= nat_of_ascii c.

(** ** Descriptions of the properties, in the words of the specification *)

(** The terminal result records among the actions, in order. *)
Fixpoint results (tr : list Action) : list WorkerResponse :=
  match tr with
  | [] => []
  | Publish (Result id st resp err) :: rest => Result id st resp err :: results rest
  | _ :: rest => results rest
  end.

(** The acknowledgements among the actions. *)
Fixpoint acks (tr : list Action) : list string :=
  match tr with
  | [] => []
  | Ack m :: rest => m :: acks rest
  | _ :: rest => acks rest
  end.

(** The progress records among the actions, in order. *)
Fixpoint progresses (tr : list Action) : list WorkerResponse :=
  match tr with
  | [] => []
  | Publish (Progress id ev d) :: rest => Progress id ev d :: progresses rest
  | _ :: rest => progresses rest
  end.

(** The actions other than log lines, in order. *)
Definition drop_logs (tr : list Action) : list Action :=
  filter (fun a => match a with Log _ => false | _ => true end) tr.

(** Concatenation of a list of strings, in order. *)
Fixpoint concat_strings (l : list string) : string :=
  match l with [] => "" | s :: r => s ++ concat_strings r end.

(** The ordered concatenation of every text-typed content block of every
    assistant message-end event. *)
Definition assistant_text (events : list AgentEvent) : string :=
  concat_strings
    (map text
       (filter (fun b => String.eqb (block_type b) "text")
          (flat_map (fun ev => match ev with
                               | message_end m =>
                                 if String.eqb (role m) "assistant" then content m else []
                               | _ => []
                               end) events))).

(** The progress-event mapping, case by case. *)
Inductive maps_to_progress (id : option json) : AgentEvent -> WorkerResponse -> Prop :=
| maps_llm_start m :
    role m = "assistant" ->
    maps_to_progress id (message_start m) (Progress id "llm_start" None)
| maps_llm_end m :
    role m = "assistant" ->
    maps_to_progress id (message_end m) (Progress id "llm_end" None)
| maps_tool_start toolName args :
    maps_to_progress id (tool_execution_start toolName args)
      (Progress id "tool_start" (Some (ToolStartData toolName args)))
| maps_tool_end toolName result isError :
    maps_to_progress id (tool_execution_end toolName result isError)
      (Progress id "tool_end" (Some (ToolEndData toolName result isError))).

Fixpoint filter_map {A B} (f : A -> option B) (l : list A) : list B :=
  match l with
  | [] => []
  | x :: r => match f x with Some y => y :: filter_map f r | None => filter_map f r end
  end.

(** An environment in which every call succeeds. *)
Definition ok_control_env : ControlEnv :=
  {| abort_error := None; steer_error := None; new_session_error := None;
     enqueue_error := None |}.

(** The runtime refuses a steer; abort throws. *)
Definition steer_busy_env : ControlEnv :=
  {| abort_error := None; steer_error := Some {| message := "Agent is busy" |};
     new_session_error := None; enqueue_error := None |}.

Definition abort_fails_env : ControlEnv :=
  {| abort_error := Some {| message := "No active run" |}; steer_error := None;
     new_session_error := None; enqueue_error := None |}.

(** Concrete inputs.  An assistant message, and the first example of the
    specification: task t1 = {id:"t1", prompt:"hello"}, the runtime emits a
    message start and a message end with text "hi". *)
Definition assistant_msg (blocks : list ContentBlock) : AgentMessage :=
  {| role := "assistant"; content := blocks |}.

Definition text_block (s : string) : ContentBlock := {| block_type := "text"; text := s |}.

Definition t1_env : TaskEnv :=
  {| prompt_events := [message_start (assistant_msg []);
                       message_end (assistant_msg [text_block "hi"])];
     prompt_error := None;
     publish_error := fun _ => None;
     xack_error := None |}.

(** The same task, failing with the runtime's abort error. *)
Definition aborted_env : TaskEnv :=
  {| prompt_events := [message_start (assistant_msg [])];
     prompt_error := Some {| message := "Aborted" |};
     publish_error := fun _ => None;
     xack_error := None |}.

(** Failing with another error, and with no event at all. *)
Definition aborted_env' : TaskEnv :=
  {| prompt_events := [];
     prompt_error := Some {| message := "Aborted" |};
     publish_error := fun _ => None;
     xack_error := None |}.

(** [JSON.stringify], for the values the tests below send: strings are
    escaped for the quote and the backslash only. *)
Fixpoint escape (s : string) : string :=
  match s with
  | EmptyString => EmptyString
  | String c r =>
    if (c =? Json.dquote)%char then String "\" (String Json.dquote (escape r))
    else if (c =? "\")%char then String "\" (String "\" (escape r))
    else String c (escape r)
  end.

Definition quoted (s : string) : string :=
  String Json.dquote (escape s ++ String Json.dquote EmptyString).

Fixpoint JSON_stringify (v : json) : string :=
  match v with
  | JNull => "null"
  | JBool b => if b then "true" else "false"
  | JNum lex => lex
  | JStr s => quoted s
  | JArr xs =>
    "[" ++ (fix go (xs : list json) (first : bool) : string :=
              match xs with
              | [] => "]"
              | x :: r => (if first then "" else ",") ++ JSON_stringify x ++ go r false
              end) xs true
  | JObj kvs =>
    "{" ++ (fix go (kvs : list (string * json)) (first : bool) : string :=
              match kvs with
              | [] => "}"
              | (k, x) :: r =>
                (if first then "" else ",") ++ quoted k ++ ":" ++ JSON_stringify x ++ go r false
              end) kvs true
  end.

(** The members of a serialized object, as written by [JSON_stringify]
    after the opening brace. *)
Fixpoint obj_body (kvs : list (string * json)) (first : bool) : string :=
  match kvs with
  | [] => "}"
  | (k, x) :: r =>
    (if first then "" else ",") ++ quoted k ++ ":" ++ JSON_stringify x ++ obj_body r false
  end.

(** An object whose values are all strings. *)
Definition str_obj (kvs : list (string * string)) : list (string * json) :=
  map (fun kv => (fst kv, JStr (snd kv))) kvs.

(** The message of task t1 on the input stream. *)
Definition t1_raw : string :=
  JSON_stringify (JObj [("id", JStr "t1"); ("prompt", JStr "hello")]).

(** The task fails and the publisher connection is down: both the error
    result and (would it get there) the success result fail to publish,
    while the acknowledgement goes through the other connection. *)
Definition publish_down_env : TaskEnv :=
  {| prompt_events := [];
     prompt_error := Some {| message := "model overloaded" |};
     publish_error := fun _ => Some {| message := "Connection is closed." |};
     xack_error := None |}.

(** Every Redis command succeeds, the runtime emits nothing. *)
Definition quiet_env : TaskEnv :=
  {| prompt_events := [];
     prompt_error := None;
     publish_error := fun _ => None;
     xack_error := None |}.

(** The second example of the specification: task t2 runs tool "x" between
    the message start and the message end "done"; a user message is also
    reported by the runtime. *)
Definition t2_env : TaskEnv :=
  {| prompt_events := [message_start (assistant_msg []);
                       message_start {| role := "user"; content := [text_block "ignored"] |};
                       tool_execution_start "x" (JObj [("path", JStr "a.txt")]);
                       tool_execution_end "x" (JStr "ok") false;
                       message_end {| role := "toolResult"; content := [text_block "ok"] |};
                       message_end (assistant_msg [text_block "done"])];
     prompt_error := None;
     publish_error := fun _ => None;
     xack_error := None |}.

(** Task t2 again, with every progress record failing to publish. *)
Definition t2_progress_down_env : TaskEnv :=
  {| prompt_events := prompt_events t2_env;
     prompt_error := None;
     publish_error := fun r => match r with
                               | Progress _ _ _ => Some {| message := "Connection is closed." |}
                               | Result _ _ _ _ => None
                               end;
     xack_error := None |}.

(** Task t1 where the write of the success record is refused (for instance
    by a stream length limit) and the error record then goes through. *)
Definition success_refused_env : TaskEnv :=
  {| prompt_events := prompt_events t1_env;
     prompt_error := None;
     publish_error := fun r => match r with
                               | Result _ st _ _ =>
                                 if String.eqb st "success"
                                 then Some {| message := "OOM command not allowed" |}
                                 else None
                               | Progress _ _ _ => None
                               end;
     xack_error := None |}.

(** C1 as stated, for one message: it is acknowledged iff a terminal result
    was published before the acknowledgement. *)
Definition ack_iff_result_published (mid : string) (tr : list Action) : Prop :=
  In (Ack mid) tr <->
  exists pre post, tr = (pre ++ Ack mid :: post)%list /\ results pre <> [].

(** Whether the field list of a stream entry has a field named "payload". *)
Fixpoint has_payload_field (fields : list string) : bool :=
  match fields with
  | [] => false
  | f :: rest =>
    String.eqb f "payload" ||
    match rest with _ :: rest' => has_payload_field rest' | [] => false end
  end.

(** Control signals. *)
Definition stop_raw : string := JSON_stringify (JObj [("command", JStr "stop")]).
Definition steer_raw (m : string) : string :=
  JSON_stringify (JObj [("command", JStr "steer"); ("message", JStr m)]).
Definition reset_raw (id : string) : string :=
  JSON_stringify (JObj [("command", JStr "reset"); ("id", JStr id)]).

(** A task is fire-and-forget when it has no id. *)
Definition fire_and_forget (payload : json) : Prop :=
  match payload with JObj kvs => JS.lookup_last "id" kvs = None | _ => False end.

(** ** Properties *)

Lemma string_app_assoc (a b c : string) : (a ++ b) ++ c = a ++ (b ++ c).
Proof. induction a as [|x a IH]; simpl; [reflexivity | now rewrite IH]. Qed.

Lemma string_app_nil_r (a : string) : a ++ "" = a.
Proof. induction a as [|x a IH]; simpl; [reflexivity | now rewrite IH]. Qed.

Lemma results_app (l1 l2 : list Action) : results (l1 ++ l2)%list = (results l1 ++ results l2)%list.
Proof.
  induction l1 as [|a l1 IH]; simpl; [reflexivity|].
  destruct a as [| [] | | | | | |]; simpl; now rewrite ?IH.
Qed.

Lemma acks_app (l1 l2 : list Action) : acks (l1 ++ l2)%list = (acks l1 ++ acks l2)%list.
Proof.
  induction l1 as [|a l1 IH]; simpl; [reflexivity|].
  destruct a; simpl; now rewrite ?IH.
Qed.

Lemma trace_try_finally {A} (m : M A) (fin : M unit) :
  trace (try_finally m fin) = (trace m ++ trace fin)%list.
Proof. destruct m, fin; reflexivity. Qed.

(** The handler's [catch] ends every run normally. *)
Lemma outcome_try_catch_log {A} (m : M unit) (line : A -> string) (x : A) :
  outcome (try_catch m (fun _ => emit (Log (line x)))) = inl tt.
Proof. destruct m as [t [[]|e]]; reflexivity. Qed.

Lemma concat_strings_app (l1 l2 : list string) :
  concat_strings (l1 ++ l2)%list = concat_strings l1 ++ concat_strings l2.
Proof.
  induction l1 as [|s l1 IH]; simpl; [reflexivity|].
  now rewrite IH, string_app_assoc.
Qed.

Lemma add_text_blocks_spec (rt : string) (blocks : list ContentBlock) :
  Worker.add_text_blocks rt blocks =
  rt ++ concat_strings (map text (filter (fun b => String.eqb (block_type b) "text") blocks)).
Proof.
  unfold Worker.add_text_blocks.
  revert rt; induction blocks as [|b blocks IH]; intros rt; simpl.
  - now rewrite string_app_nil_r.
  - rewrite IH. destruct (String.eqb (block_type b) "text"); simpl;
      [now rewrite string_app_assoc | reflexivity].
Qed.

Lemma assistant_text_cons (ev : AgentEvent) (events : list AgentEvent) :
  assistant_text (ev :: events) =
  assistant_text [ev] ++ assistant_text events.
Proof.
  unfold assistant_text. simpl flat_map at 1.
  rewrite filter_app, map_app, concat_strings_app.
  f_equal. simpl. now rewrite app_nil_r.
Qed.

Lemma collect_spec (rt : string) (ev : AgentEvent) :
  Worker.collect rt ev = rt ++ assistant_text [ev].
Proof.
  unfold Worker.collect, assistant_text.
  destruct ev as [m|m| | |]; simpl; try (now rewrite string_app_nil_r).
  destruct (String.eqb (role m) "assistant"); simpl.
  - rewrite app_nil_r. apply add_text_blocks_spec.
  - now rewrite string_app_nil_r.
Qed.

Lemma run_events_text (env : TaskEnv) (id : option json) (rt : string)
    (events : list AgentEvent) :
  fst (Worker.run_events env id rt events) = rt ++ assistant_text events.
Proof.
  revert rt; induction events as [|ev events IH]; intros rt; simpl.
  - now rewrite string_app_nil_r.
  - destruct (Worker.run_events env id (Worker.collect rt ev) events) as [rt' acts'] eqn:E.
    simpl. specialize (IH (Worker.collect rt ev)). rewrite E in IH. simpl in IH.
    rewrite IH, collect_spec, (assistant_text_cons ev events). apply string_app_assoc.
Qed.

(** The callback only publishes progress records and logs. *)
Lemma run_events_no_result_no_ack (env : TaskEnv) (id : option json) (rt : string)
    (events : list AgentEvent) :
  results (snd (Worker.run_events env id rt events)) = [] /\
  acks (snd (Worker.run_events env id rt events)) = [].
Proof.
  revert rt; induction events as [|ev events IH]; intros rt; simpl; [auto|].
  destruct (Worker.run_events env id (Worker.collect rt ev) events) as [rt' acts'] eqn:E.
  specialize (IH (Worker.collect rt ev)). rewrite E in IH. simpl in *.
  rewrite results_app, acks_app. destruct IH as [-> ->].
  destruct (Worker.progress_of id ev) as [p|] eqn:Hp; simpl; [|auto].
  assert (exists i e d, p = Progress i e d) as (i & e & d & ->).
  { destruct ev; simpl in Hp;
      repeat match goal with _ : context [String.eqb ?a ?b] |- _ => destruct (String.eqb a b) end;
      inversion Hp; eauto. }
  unfold Worker.publish_progress; destruct (publish_error env _); simpl; auto.
Qed.

Lemma run_events_published (env : TaskEnv) (id : option json) (rt : string)
    (events : list AgentEvent) :
  (forall r, publish_error env r = None) ->
  snd (Worker.run_events env id rt events) =
  map Publish (filter_map (Worker.progress_of id) events).
Proof.
  intros Hok. revert rt; induction events as [|ev events IH]; intros rt; simpl; [auto|].
  destruct (Worker.run_events env id (Worker.collect rt ev) events) as [rt' acts'] eqn:E.
  specialize (IH (Worker.collect rt ev)). rewrite E in IH. simpl in *. rewrite IH.
  destruct (Worker.progress_of id ev) as [p|]; simpl; [|reflexivity].
  unfold Worker.publish_progress. now rewrite Hok.
Qed.

(** Claim C6. The progress mapping is exact: an event yields a progress
    record [p] exactly when it is an assistant message start ([llm_start]),
    an assistant message end ([llm_end]), a tool start ([tool_start] with the
    tool name and arguments) or a tool end ([tool_end] with the tool name,
    result and isError); message events of any other role yield none; and,
    when publishing succeeds, the callback publishes exactly these records,
    one per mapped event, in the order of the events. *)
Theorem progress_mapping_exact :
  (forall id ev p, Worker.progress_of id ev = Some p <-> maps_to_progress id ev p) /\
  (forall id m, role m <> "assistant" ->
     Worker.progress_of id (message_start m) = None /\
     Worker.progress_of id (message_end m) = None) /\
  (forall env id rt events,
     (forall r, publish_error env r = None) ->
     snd (Worker.run_events env id rt events) =
     map Publish (filter_map (Worker.progress_of id) events)).
Proof.
  split; [|split].
  - intros id ev p; split.
    + destruct ev as [m|m| | |]; simpl; try discriminate.
      * destruct (String.eqb_spec (role m) "assistant"); intros H; inversion H; subst.
        now constructor.
      * destruct (String.eqb_spec (role m) "assistant"); intros H; inversion H; subst.
        now constructor.
      * intros H; inversion H; constructor.
      * intros H; inversion H; constructor.
    + intros H; inversion H; subst; simpl; try reflexivity;
        match goal with Hr : role _ = _ |- _ => now rewrite Hr end.
  - intros id m Hm. simpl. apply String.eqb_neq in Hm. now rewrite Hm.
  - intros env id rt events Hok. now apply run_events_published.
Qed.

Lemma progress_mapping_exact_witness :
  snd (Worker.run_events t2_env (Some (JStr "t2")) "" (prompt_events t2_env)) =
  [Publish (Progress (Some (JStr "t2")) "llm_start" None);
   Publish (Progress (Some (JStr "t2")) "tool_start"
              (Some (ToolStartData "x" (JObj [("path", JStr "a.txt")]))));
   Publish (Progress (Some (JStr "t2")) "tool_end" (Some (ToolEndData "x" (JStr "ok") false)));
   Publish (Progress (Some (JStr "t2")) "llm_end" None)].
Proof.
  apply (proj2 (proj2 progress_mapping_exact)). intros r; reflexivity.
Defined.

Example t2_response_text : assistant_text (prompt_events t2_env) = "done".
Proof. reflexivity. Qed.

Lemma template_pure (v : option json) : exists r, template v = ([], r).
Proof.
  destruct v as [x|]; simpl; [|eexists; reflexivity].
  destruct (JS.to_string x); eexists; reflexivity.
Qed.

Lemma template_or_pure (v : option json) (d : string) : exists r, template_or v d = ([], r).
Proof. unfold template_or. destruct (JS.truthy v); [apply template_pure | eexists; reflexivity]. Qed.

(** A raw signal that parses as JSON is not the plain text "STOP". *)
Lemma parsed_not_plain_stop (raw : string) (v : json) :
  JSON_parse raw = Some v -> String.eqb raw "STOP" = false.
Proof.
  intros H. destruct (String.eqb raw "STOP") eqn:E; [|reflexivity].
  apply String.eqb_eq in E. subst raw. vm_compute in H. discriminate H.
Qed.

(** Case analysis on the evaluation of the control handlers' [try] block,
    once the parsed signal is a constructor. *)
Ltac handler_split :=
  repeat (cbn [bind ret throw emit call durable get_prop fst snd app] in *;
    match goal with
    | |- context [template_or ?v ?d] =>
      let H := fresh in destruct (template_or_pure v d) as [[?|?] H]; rewrite H; clear H
    | |- context [template ?v] =>
      let H := fresh in destruct (template_pure v) as [[?|?] H]; rewrite H; clear H
    | |- context [call _ (?f ?x)] => destruct (f x)
    | |- context [durable _ (?f ?x)] => destruct (f x)
    | |- context [if ?b then _ else _] => destruct b
    | |- context [match ?o with Some _ => _ | None => _ end] => destruct o
    end).

(** Claim C9. The control-signal handler is total, in both variants
    (whatever the greeting prompt) and whatever the raw signal, the value
    of the slot and the outcome of the calls it makes.  Every exception
    thrown inside it is caught and logged: the handler's actions are those
    of its [try] block, followed by the "[Control]" error line exactly when
    that block threw, and it always ends normally.  The rejections of the
    asynchronous operations are among these exceptions: when the block
    calls abort and abort throws, calls steer and steer rejects, or calls
    newSession and newSession (or, after it, the enqueue of the greeting)
    rejects, the block throws that very error. *)
Theorem control_handler_total (greeting : string) (env : ControlEnv)
    (currentTaskId : option json) (rawSignal : string) :
  let body := Control.handler_body greeting env currentTaskId rawSignal in
  let h := Control.handler greeting env currentTaskId rawSignal in
  outcome h = inl tt /\
  trace h = (trace body ++
             match outcome body with
             | inl _ => []
             | inr _ => [Log ("[Control] Failed to parse control signal as JSON: " ++ rawSignal)]
             end)%list /\
  (forall e, abort_error env = Some e -> In AbortCall (trace body) -> outcome body = inr e) /\
  (forall e msg, steer_error env = Some e -> In (SteerCall msg) (trace body) ->
     outcome body = inr e) /\
  (forall e, new_session_error env = Some e -> In NewSessionCall (trace body) ->
     outcome body = inr e) /\
  (forall e, new_session_error env = None -> enqueue_error env = Some e ->
     In NewSessionCall (trace body) -> outcome body = inr e).
Proof.
  intros body h. subst body h.
  split; [|split].
  - unfold Control.handler, Control.handler_catch.
    exact (outcome_try_catch_log _ (fun s => "[Control] Failed to parse control signal as JSON: " ++ s) rawSignal).
  - unfold Control.handler, Control.handler_catch, try_catch.
    destruct (Control.handler_body greeting env currentTaskId rawSignal) as [t [[]|e]];
      simpl; [now rewrite app_nil_r | reflexivity].
  - unfold Control.handler_body.
    repeat split; intros e; [intros He | intros msg He | intros He | intros Hn He];
      rewrite ?He, ?Hn;
      (destruct (JSON_parse rawSignal) as [sg|]; [|simpl; contradiction]);
      destruct sg; handler_split; simpl;
      intros Hin; repeat destruct Hin as [Hin|Hin]; try discriminate; try contradiction;
      reflexivity.
Qed.

Lemma control_handler_total_witness :
  In (SteerCall (Some (JStr "go left")))
     (trace (Control.handler_body Control.greeting_reliable steer_busy_env None
               (steer_raw "go left"))) /\
  outcome (Control.handler_body Control.greeting_reliable steer_busy_env None (steer_raw "go left"))
    = inr {| message := "Agent is busy" |} /\
  trace (Control.handler Control.greeting_reliable steer_busy_env None (steer_raw "go left")) =
    (trace (Control.handler_body Control.greeting_reliable steer_busy_env None
              (steer_raw "go left")) ++
     [Log ("[Control] Failed to parse control signal as JSON: " ++ steer_raw "go left")])%list.
Proof.
  pose proof (control_handler_total Control.greeting_reliable steer_busy_env None
                (steer_raw "go left")) as (_ & Htr & _ & Hsteer & _).
  assert (Hin : In (SteerCall (Some (JStr "go left")))
                   (trace (Control.handler_body Control.greeting_reliable steer_busy_env None
                             (steer_raw "go left")))) by (simpl; auto).
  pose proof (Hsteer _ _ eq_refl Hin) as Ho.
  split; [exact Hin|]. split; [exact Ho|]. rewrite Htr, Ho. reflexivity.
Defined.

(** A falsy value always renders. *)
Lemma template_or_renders (v : option json) (d s : string) :
  template_or v d = ([], inl s) -> exists s', template v = ([], inl s').
Proof.
  unfold template_or. destruct (JS.truthy v) eqn:T; intros H; [eauto|].
  destruct v as [[]|]; simpl in *; try discriminate; eexists; reflexivity.
Qed.

(** A task whose prompt reached the agent runtime went through the
    "Processing task" log line, so its id renders. *)
Lemma dispatch_reaches_run_task (env : TaskEnv) (mid : string) (id prompt : option json) :
  In (PromptCall prompt) (trace (Worker.dispatch env mid id prompt)) ->
  (exists s, template id = ([], inl s)) /\
  exists l, trace (Worker.dispatch env mid id prompt) =
            Log l :: trace (Worker.run_task env mid id prompt).
Proof.
  unfold Worker.dispatch.
  destruct (template_or_pure id "") as [[s1|e1] E1]; rewrite E1;
    [|simpl; tauto].
  destruct (template_pure prompt) as [[s2|e2] E2]; rewrite E2;
    [|simpl; tauto].
  destruct (Worker.run_task env mid id prompt) as [t r] eqn:Er.
  simpl. intros _. split; [eapply template_or_renders; eauto|eauto].
Qed.

Lemma results_durable (a : Action) (err : option Exn) :
  (forall id st resp e, a <> Publish (Result id st resp e)) ->
  results (trace (durable a err)) = [].
Proof.
  intros Ha. destruct err; simpl; [reflexivity|].
  destruct a as [| [] | | | | | |]; simpl; try reflexivity.
  exfalso; eapply Ha; reflexivity.
Qed.

Lemma run_task_error_results (env : TaskEnv) (mid : string) (id prompt : option json)
    (e : Exn) (s : string) :
  template id = ([], inl s) ->
  prompt_error env = Some e ->
  publish_error env (Result id "error" None (Some (Worker.error_text (message e)))) = None ->
  results (trace (Worker.run_task env mid id prompt)) =
  [Result id "error" None (Some (Worker.error_text (message e)))].
Proof.
  intros Ht Hp Hpub. unfold Worker.run_task.
  rewrite trace_try_finally, results_app, results_durable by discriminate.
  destruct (Worker.run_events env id "" (prompt_events env)) as [rt acts] eqn:Ev.
  pose proof (run_events_no_result_no_ack env id "" (prompt_events env)) as [Hr _].
  rewrite Ev in Hr. simpl in Hr.
  rewrite Hp. simpl. rewrite Ht. simpl.
  unfold Worker.publish, durable. rewrite Hpub.
  destruct (String.eqb (message e) "Aborted"); simpl;
    rewrite !results_app, Hr; reflexivity.
Qed.

Lemma run_task_success_results (env : TaskEnv) (mid : string) (id prompt : option json)
    (s : string) :
  template id = ([], inl s) ->
  prompt_error env = None ->
  publish_error env (Result id "success" (Some (assistant_text (prompt_events env))) None) = None ->
  results (trace (Worker.run_task env mid id prompt)) =
  [Result id "success" (Some (assistant_text (prompt_events env))) None].
Proof.
  intros Ht Hp Hpub. unfold Worker.run_task.
  rewrite trace_try_finally, results_app, results_durable by discriminate.
  pose proof (run_events_text env id "" (prompt_events env)) as Htxt.
  pose proof (run_events_no_result_no_ack env id "" (prompt_events env)) as [Hr _].
  destruct (Worker.run_events env id "" (prompt_events env)) as [rt acts] eqn:Ev.
  simpl in Htxt, Hr. subst rt.
  rewrite Hp. simpl. rewrite Ht. simpl.
  unfold Worker.publish, durable. rewrite Hpub. simpl.
  rewrite !results_app, Hr. reflexivity.
Qed.

Lemma run_task_success_only (env : TaskEnv) (mid : string) (id prompt : option json)
    (i : option json) (resp err : option string) :
  In (Result i "success" resp err) (results (trace (Worker.run_task env mid id prompt))) ->
  resp = Some (assistant_text (prompt_events env)).
Proof.
  unfold Worker.run_task.
  rewrite trace_try_finally, results_app, results_durable by discriminate.
  rewrite app_nil_r.
  pose proof (run_events_text env id "" (prompt_events env)) as Htxt.
  pose proof (run_events_no_result_no_ack env id "" (prompt_events env)) as [Hr _].
  destruct (Worker.run_events env id "" (prompt_events env)) as [rt acts] eqn:Ev.
  simpl in Htxt, Hr. subst rt.
  destruct (template_pure id) as [[s|e] Ht]; rewrite Ht;
  destruct (prompt_error env) as [pe|]; simpl;
  unfold Worker.publish, durable, try_catch, bind, emit;
  repeat (simpl;
          match goal with
          | |- context [if ?b then _ else _] => destruct b
          | |- context [match publish_error ?e ?r with _ => _ end] =>
            destruct (publish_error e r)
          end);
  simpl; rewrite ?app_nil_r, ?results_app, ?Hr; simpl; intros H;
  repeat match goal with
         | H : _ \/ _ |- _ => destruct H
         | H : False |- _ => destruct H
         | H : Result _ _ _ _ = Result _ _ _ _ |- _ => inversion H; subst; clear H
         end; try reflexivity.
Qed.

(** Claim C5. The response text of a success result is the ordered
    concatenation of the text blocks of the assistant message-end events of
    the task: every success record a task publishes carries exactly that
    text (nothing else contributes), and a task whose prompt reached the
    runtime and completed, with the result published, publishes exactly one
    result, the success record with that text. *)
Theorem response_text_is_assistant_text :
  (forall env mid id prompt i resp err,
     In (Result i "success" resp err)
        (results (trace (Worker.run_task env mid id prompt))) ->
     resp = Some (assistant_text (prompt_events env))) /\
  (forall env mid id prompt,
     In (PromptCall prompt) (trace (Worker.dispatch env mid id prompt)) ->
     prompt_error env = None ->
     publish_error env
       (Result id "success" (Some (assistant_text (prompt_events env))) None) = None ->
     results (trace (Worker.dispatch env mid id prompt)) =
     [Result id "success" (Some (assistant_text (prompt_events env))) None]).
Proof.
  split.
  - intros env mid id prompt i resp err. apply run_task_success_only.
  - intros env mid id prompt Hin Hp Hpub.
    destruct (dispatch_reaches_run_task env mid id prompt Hin) as [[s Ht] [l ->]].
    simpl. eapply run_task_success_results; eauto.
Qed.

Lemma response_text_is_assistant_text_witness :
  results (trace (Worker.dispatch t1_env "1-0" (Some (JStr "t1")) (Some (JStr "hello")))) =
  [Result (Some (JStr "t1")) "success" (Some "hi") None].
Proof.
  apply (proj2 response_text_is_assistant_text).
  - simpl. right. left. reflexivity.
  - reflexivity.
  - reflexivity.
Defined.

(** Claim C4. When the agent invocation of a task fails (and the error
    result is published), the task publishes exactly one result: an error
    carrying the fixed text "Task aborted by user" when the failure has the
    abort signature (its message is "Aborted", so the raw text is not
    published), and the raw failure message otherwise. *)
Theorem failed_task_result (env : TaskEnv) (mid : string) (id prompt : option json)
    (e : Exn) :
  In (PromptCall prompt) (trace (Worker.dispatch env mid id prompt)) ->
  prompt_error env = Some e ->
  publish_error env (Result id "error" None (Some (Worker.error_text (message e)))) = None ->
  (message e = "Aborted" ->
   results (trace (Worker.dispatch env mid id prompt)) =
   [Result id "error" None (Some "Task aborted by user")]) /\
  (message e <> "Aborted" ->
   results (trace (Worker.dispatch env mid id prompt)) =
   [Result id "error" None (Some (message e))]).
Proof.
  intros Hin Hp Hpub.
  destruct (dispatch_reaches_run_task env mid id prompt Hin) as [[s Ht] [l Htr]].
  rewrite Htr. simpl.
  rewrite (run_task_error_results env mid id prompt e s Ht Hp Hpub).
  unfold Worker.error_text.
  split; intros Hm.
  - now rewrite Hm.
  - apply String.eqb_neq in Hm. now rewrite Hm.
Qed.

Lemma failed_task_result_witness :
  results (trace (Worker.dispatch aborted_env "1-0" (Some (JStr "t2")) (Some (JStr "run tool")))) =
  [Result (Some (JStr "t2")) "error" None (Some "Task aborted by user")].
Proof.
  apply (proj1 (failed_task_result aborted_env "1-0" (Some (JStr "t2")) (Some (JStr "run tool"))
                  {| message := "Aborted" |}
                  ltac:(simpl; right; left; reflexivity) eq_refl eq_refl)).
  reflexivity.
Defined.

(** The results of a failed task, whether or not its error record could
    be written. *)
Lemma run_task_error_results_any (env : TaskEnv) (mid : string) (id prompt : option json)
    (e : Exn) (s : string) :
  template id = ([], inl s) ->
  prompt_error env = Some e ->
  results (trace (Worker.run_task env mid id prompt)) =
  match publish_error env (Result id "error" None (Some (Worker.error_text (message e)))) with
  | None => [Result id "error" None (Some (Worker.error_text (message e)))]
  | Some _ => []
  end.
Proof.
  intros Ht Hp. unfold Worker.run_task.
  rewrite trace_try_finally, results_app, results_durable by discriminate.
  destruct (Worker.run_events env id "" (prompt_events env)) as [rt acts] eqn:Ev.
  pose proof (run_events_no_result_no_ack env id "" (prompt_events env)) as [Hr _].
  rewrite Ev in Hr. simpl in Hr.
  rewrite Hp. simpl. rewrite Ht. simpl.
  unfold Worker.publish, durable.
  destruct (publish_error env (Result id "error" None (Some (Worker.error_text (message e)))));
  destruct (String.eqb (message e) "Aborted"); simpl;
    rewrite !results_app, Hr; reflexivity.
Qed.

Lemma best_effort_error_results (dflt : string) (env : TaskEnv) (id prompt : option json)
    (e : Exn) (s : string) :
  template_or id dflt = ([], inl s) ->
  prompt_error env = Some e ->
  results (trace (BestEffort.run_task dflt env id prompt)) =
  match publish_error env (Result id "error" None (Some (Worker.error_text (message e)))) with
  | None => [Result id "error" None (Some (Worker.error_text (message e)))]
  | Some _ => []
  end.
Proof.
  intros Ht Hp. unfold BestEffort.run_task.
  destruct (Worker.run_events env id "" (prompt_events env)) as [rt acts] eqn:Ev.
  pose proof (run_events_no_result_no_ack env id "" (prompt_events env)) as [Hr _].
  rewrite Ev in Hr. simpl in Hr.
  rewrite Hp. simpl. rewrite Ht. simpl.
  unfold Worker.publish, durable.
  destruct (publish_error env (Result id "error" None (Some (Worker.error_text (message e)))));
  destruct (String.eqb (message e) "Aborted"); simpl;
    rewrite !results_app, Hr; reflexivity.
Qed.

(** A task of the first best-effort variant whose prompt reached the
    runtime went through the "Processing task" log line (so its id renders)
    and published no result before [run_task]. *)
Lemma body_v1_reaches_run_task (env : TaskEnv) (reset_error : option Exn) (raw : string)
    (kvs : list (string * json)) (p : option json) :
  JSON_parse raw = Some (JObj kvs) ->
  In (PromptCall p) (trace (BestEffort.body_v1 env reset_error raw)) ->
  (exists s, template_or (JS.lookup_last "id" kvs) "unknown" = ([], inl s)) /\
  results (trace (BestEffort.body_v1 env reset_error raw)) =
  results (trace (BestEffort.run_task "unknown" env (JS.lookup_last "id" kvs)
                    (JS.lookup_last "prompt" kvs))).
Proof.
  intros Hj. unfold BestEffort.body_v1. rewrite Hj.
  cbv beta iota zeta delta [get_prop bind ret emit].
  destruct (BestEffort.run_task "unknown" env (JS.lookup_last "id" kvs)
              (JS.lookup_last "prompt" kvs)) as [t r].
  destruct (template_or_pure (JS.lookup_last "id" kvs) "unknown") as [[s|es] Hs];
    rewrite Hs;
  destruct (JS.truthy (JS.lookup_last "reset" kvs));
  destruct reset_error; unfold call; cbn [fst snd app];
  destruct (JS.truthy (JS.lookup_last "prompt" kvs)); cbn [negb fst snd app];
  try (destruct (template_pure (JS.lookup_last "prompt" kvs)) as [[s2|e2] H2]; rewrite H2);
  cbn [fst snd app results trace];
  intros Hin; repeat destruct Hin as [Hin|Hin]; try discriminate; try contradiction;
  split; eauto.
Qed.

(** Claim C10. The classification of a failure is string equality on its
    message, in the reliable worker (index.ts) and in the first best-effort
    variant (part_000): once a task's prompt has reached the runtime and
    the invocation fails with error [e], the only terminal result the task
    publishes is the error record with the task's id and the text "Task
    aborted by user" when [message e] is exactly "Aborted", and [message e]
    itself otherwise.  Nothing else enters the decision (no stop signal, no
    event, no prompt, no progress write); the record is published when its
    own write succeeds, and nothing is published when it fails. *)
Theorem abort_classification_by_message (env : TaskEnv) (e : Exn) :
  prompt_error env = Some e ->
  (forall mid id prompt,
     In (PromptCall prompt) (trace (Worker.dispatch env mid id prompt)) ->
     results (trace (Worker.dispatch env mid id prompt)) =
     match publish_error env
             (Result id "error" None
                (Some (if String.eqb (message e) "Aborted"
                       then "Task aborted by user" else message e))) with
     | None => [Result id "error" None
                  (Some (if String.eqb (message e) "Aborted"
                         then "Task aborted by user" else message e))]
     | Some _ => []
     end) /\
  (forall reset_error raw kvs p,
     JSON_parse raw = Some (JObj kvs) ->
     In (PromptCall p) (trace (BestEffort.body_v1 env reset_error raw)) ->
     results (trace (BestEffort.body_v1 env reset_error raw)) =
     match publish_error env
             (Result (JS.lookup_last "id" kvs) "error" None
                (Some (if String.eqb (message e) "Aborted"
                       then "Task aborted by user" else message e))) with
     | None => [Result (JS.lookup_last "id" kvs) "error" None
                  (Some (if String.eqb (message e) "Aborted"
                         then "Task aborted by user" else message e))]
     | Some _ => []
     end).
Proof.
  intros Hp. split.
  - intros mid id prompt Hin.
    destruct (dispatch_reaches_run_task env mid id prompt Hin) as [[s Ht] [l Htr]].
    rewrite Htr. simpl.
    exact (run_task_error_results_any env mid id prompt e s Ht Hp).
  - intros reset_error raw kvs p Hj Hin.
    destruct (body_v1_reaches_run_task env reset_error raw kvs p Hj Hin) as [[s Ht] Hr].
    rewrite Hr.
    exact (best_effort_error_results "unknown" env _ _ e s Ht Hp).
Qed.

Lemma abort_classification_by_message_witness :
  results (trace (Worker.dispatch aborted_env "1-0" (Some (JStr "t2")) (Some (JStr "run tool")))) =
    [Result (Some (JStr "t2")) "error" None (Some "Task aborted by user")] /\
  results (trace (BestEffort.body_v1 publish_down_env None t1_raw)) = [].
Proof.
  split.
  - apply (proj1 (abort_classification_by_message aborted_env {| message := "Aborted" |}
                    eq_refl) "1-0" (Some (JStr "t2")) (Some (JStr "run tool"))).
    simpl. right. left. reflexivity.
  - apply (proj2 (abort_classification_by_message publish_down_env
                    {| message := "model overloaded" |} eq_refl)
             None t1_raw [("id", JStr "t1"); ("prompt", JStr "hello")]
             (Some (JStr "hello"))).
    + vm_compute. reflexivity.
    + simpl. auto 10.
Defined.

(** The actions of a task before its [finally] clause: no acknowledgement,
    at most one terminal result. *)
Lemma run_task_before_finally (env : TaskEnv) (mid : string) (id prompt : option json) :
  exists pre,
    trace (Worker.run_task env mid id prompt) =
      (pre ++ trace (durable (Ack mid) (xack_error env)))%list /\
    acks pre = [] /\ length (results pre) <= 1.
Proof.
  unfold Worker.run_task. rewrite trace_try_finally.
  eexists; split; [reflexivity|].
  pose proof (run_events_no_result_no_ack env id "" (prompt_events env)) as [Hr Ha].
  destruct (Worker.run_events env id "" (prompt_events env)) as [rt acts] eqn:Ev.
  simpl in Hr, Ha.
  destruct (template_pure id) as [[s|e] Ht]; rewrite Ht;
  destruct (prompt_error env) as [pe|]; simpl;
  unfold Worker.publish, durable, try_catch, bind, emit;
  repeat (simpl;
          match goal with
          | |- context [if ?b then _ else _] => destruct b
          | |- context [match publish_error ?e ?r with _ => _ end] =>
            destruct (publish_error e r)
          end);
  simpl; rewrite ?app_nil_r, ?results_app, ?acks_app, ?Hr, ?Ha; simpl; auto.
Qed.

Lemma ack_without_result :
  In (Ack "1-0") (trace (Worker.reliable_iteration publish_down_env "1-0" ["payload"; t1_raw])) /\
  results (trace (Worker.reliable_iteration publish_down_env "1-0" ["payload"; t1_raw])) = [] /\
  ~ ack_iff_result_published "1-0"
      (trace (Worker.reliable_iteration publish_down_env "1-0" ["payload"; t1_raw])).
Proof.
  split; [|split].
  - vm_compute. tauto.
  - reflexivity.
  - unfold ack_iff_result_published. intros [H _].
    destruct H as (pre & post & Htr & Hres).
    + vm_compute. tauto.
    + apply Hres.
      assert (Hall : results (trace (Worker.reliable_iteration publish_down_env "1-0"
                                       ["payload"; t1_raw])) = []) by reflexivity.
      rewrite Htr, results_app in Hall.
      now destruct (results pre).
Qed.

(** Claim C1 (as amended). For every task that reaches execution, the
    acknowledgement is issued in the [finally] clause: exactly once, as the
    last action of the task, on every exit path (success, error, abort, and
    also when publishing the result fails); the at most one terminal result
    the task publishes precedes it.  No publication is required before it:
    when publishing fails the message is acknowledged without any result. *)
Theorem run_task_acks_last (env : TaskEnv) (mid : string) (id prompt : option json) :
  (xack_error env = None ->
   exists pre,
     trace (Worker.run_task env mid id prompt) = (pre ++ [Ack mid])%list /\
     acks pre = [] /\ length (results pre) <= 1) /\
  (forall e, xack_error env = Some e ->
   acks (trace (Worker.run_task env mid id prompt)) = [] /\
   length (results (trace (Worker.run_task env mid id prompt))) <= 1).
Proof.
  destruct (run_task_before_finally env mid id prompt) as (pre & Htr & Ha & Hr).
  split.
  - intros Hx. exists pre. rewrite Htr, Hx. auto.
  - intros e Hx. rewrite Htr, Hx. simpl.
    rewrite !app_nil_r. auto.
Qed.

Lemma run_task_acks_last_witness :
  exists pre,
    trace (Worker.run_task publish_down_env "1-0" (Some (JStr "t1")) (Some (JStr "hello"))) =
      (pre ++ [Ack "1-0"])%list /\
    acks pre = [] /\ length (results pre) <= 1.
Proof.
  apply (proj1 (run_task_acks_last publish_down_env "1-0" (Some (JStr "t1")) (Some (JStr "hello")))).
  reflexivity.
Defined.

Lemma stop_when_idle_calls_abort :
  trace (Control.handler_reliable ok_control_env None stop_raw) =
    [Log "[Interrupt] Received stop for current task (none)"; AbortCall] /\
  In AbortCall (trace (Control.handler_reliable ok_control_env None stop_raw)).
Proof. split; [reflexivity | simpl; auto]. Qed.

(** Claim C2 (as amended). A stop signal delivered while no task occupies
    the slot is not filtered: both handlers log it and call the agent
    runtime's abort exactly once, and neither publishes a result or
    enqueues anything.  If abort throws, the handler of index.ts (the same
    as the second best-effort variant's) only logs the "[Control]" line,
    while the first best-effort variant's handler drops the error silently
    (a JSON signal is never the plain text "STOP").  Both end normally. *)
Theorem stop_when_idle (greeting : string) (env : ControlEnv) (raw : string)
    (kvs : list (string * json)) :
  JSON_parse raw = Some (JObj kvs) ->
  JS.lookup_last "command" kvs = Some (JStr "stop") ->
  trace (Control.handler greeting env None raw) =
    ([Log "[Interrupt] Received stop for current task (none)"; AbortCall] ++
     match abort_error env with
     | None => []
     | Some _ => [Log ("[Control] Failed to parse control signal as JSON: " ++ raw)]
     end)%list /\
  outcome (Control.handler greeting env None raw) = inl tt /\
  trace (BestEffort.legacy_handler env None raw) =
    [Log "[Interrupt] Received stop for current task (none)"; AbortCall] /\
  outcome (BestEffort.legacy_handler env None raw) = inl tt.
Proof.
  intros Hp Hc. pose proof (parsed_not_plain_stop raw _ Hp) as Hs.
  unfold Control.handler, Control.handler_body, Control.handler_catch,
    BestEffort.legacy_handler.
  rewrite Hp. unfold get_prop. rewrite Hc. simpl.
  destruct (abort_error env); simpl; rewrite ?Hs; repeat split; reflexivity.
Qed.

Lemma stop_when_idle_witness :
  trace (Control.handler_reliable abort_fails_env None stop_raw) =
    ([Log "[Interrupt] Received stop for current task (none)"; AbortCall] ++
     [Log ("[Control] Failed to parse control signal as JSON: " ++ stop_raw)])%list /\
  outcome (Control.handler_reliable abort_fails_env None stop_raw) = inl tt /\
  trace (BestEffort.legacy_handler abort_fails_env None stop_raw) =
    [Log "[Interrupt] Received stop for current task (none)"; AbortCall] /\
  outcome (BestEffort.legacy_handler abort_fails_env None stop_raw) = inl tt.
Proof.
  apply (stop_when_idle Control.greeting_reliable abort_fails_env stop_raw
           [("command", JStr "stop")]); reflexivity.
Defined.

Lemma steer_when_idle_forwarded :
  In (SteerCall (Some (JStr "go left")))
     (trace (Control.handler_reliable ok_control_env None (steer_raw "go left"))).
Proof. simpl. auto. Qed.

(** Claim C3 (as amended). For a steer signal delivered while no task
    occupies the slot, neither handler consults the slot.  A non-empty
    string message is logged and forwarded to the agent runtime's steer.
    If steer rejects, the handler of index.ts (the same as the second
    best-effort variant's) logs the "[Control]" line, and the first
    best-effort variant's handler drops the error silently.  A missing or
    falsy message (the empty string, 0, false, null) drops the signal with
    no steer call and no log at all. *)
Theorem steer_when_idle (greeting : string) (env : ControlEnv) (raw : string)
    (kvs : list (string * json)) :
  JSON_parse raw = Some (JObj kvs) ->
  JS.lookup_last "command" kvs = Some (JStr "steer") ->
  (forall m, JS.lookup_last "message" kvs = Some (JStr m) -> m <> "" ->
     trace (Control.handler greeting env None raw) =
       ([Log ("[Steer] Received steer for current task (none): " ++ m);
         SteerCall (Some (JStr m))] ++
        match steer_error env with
        | None => []
        | Some _ => [Log ("[Control] Failed to parse control signal as JSON: " ++ raw)]
        end)%list /\
     trace (BestEffort.legacy_handler env None raw) =
       [Log ("[Steer] Received steer for current task (none): " ++ m);
        SteerCall (Some (JStr m))] /\
     outcome (BestEffort.legacy_handler env None raw) = inl tt) /\
  (JS.truthy (JS.lookup_last "message" kvs) = false ->
     trace (Control.handler greeting env None raw) = [] /\
     trace (BestEffort.legacy_handler env None raw) = []).
Proof.
  intros Hp Hc. pose proof (parsed_not_plain_stop raw _ Hp) as Hs.
  unfold Control.handler, Control.handler_body, Control.handler_catch,
    BestEffort.legacy_handler.
  rewrite Hp. unfold get_prop. rewrite Hc.
  split.
  - intros m Hm Hne. rewrite Hm. simpl.
    apply String.eqb_neq in Hne. rewrite Hne. simpl.
    destruct (steer_error env); simpl; rewrite ?Hs; repeat split; reflexivity.
  - intros Hf. simpl. rewrite Hf. split; reflexivity.
Qed.

Lemma steer_when_idle_witness :
  trace (Control.handler_reliable steer_busy_env None (steer_raw "go left")) =
    ([Log ("[Steer] Received steer for current task (none): " ++ "go left");
      SteerCall (Some (JStr "go left"))] ++
     [Log ("[Control] Failed to parse control signal as JSON: " ++ steer_raw "go left")])%list /\
  trace (BestEffort.legacy_handler steer_busy_env None (steer_raw "go left")) =
    [Log ("[Steer] Received steer for current task (none): " ++ "go left");
     SteerCall (Some (JStr "go left"))] /\
  outcome (BestEffort.legacy_handler steer_busy_env None (steer_raw "go left")) = inl tt.
Proof.
  apply (proj1 (steer_when_idle Control.greeting_reliable steer_busy_env (steer_raw "go left")
                  [("command", JStr "steer"); ("message", JStr "go left")]
                  eq_refl eq_refl) "go left"); [reflexivity | discriminate].
Defined.

Lemma reset_greeting_carries_id :
  trace (Control.handler_reliable ok_control_env None (reset_raw "x")) =
    [Log "[Reset] Received reset command for current session"; NewSessionCall;
     Enqueue (Control.greeting_payload (Some (JStr "x")) Control.greeting_reliable)] /\
  ~ fire_and_forget (Control.greeting_payload (Some (JStr "x")) Control.greeting_reliable).
Proof. split; [reflexivity | simpl; discriminate]. Qed.

(** Claim C7 (as amended). For every reset signal, whatever the slot holds,
    the handler asks the agent runtime to discard its session and, once that
    succeeds, enqueues exactly one greeting task; the greeting carries the
    signal's id field, so it is fire-and-forget exactly when the signal has
    no id.  When the session reset rejects, nothing is enqueued and the
    error is logged. *)
Theorem reset_enqueues_greeting (greeting : string) (env : ControlEnv)
    (currentTaskId : option json) (raw : string) (kvs : list (string * json)) :
  JSON_parse raw = Some (JObj kvs) ->
  JS.lookup_last "command" kvs = Some (JStr "reset") ->
  (new_session_error env = None -> enqueue_error env = None ->
     trace (Control.handler greeting env currentTaskId raw) =
       [Log "[Reset] Received reset command for current session"; NewSessionCall;
        Enqueue (Control.greeting_payload (JS.lookup_last "id" kvs) greeting)]) /\
  (forall e, new_session_error env = Some e ->
     trace (Control.handler greeting env currentTaskId raw) =
       [Log "[Reset] Received reset command for current session"; NewSessionCall;
        Log ("[Control] Failed to parse control signal as JSON: " ++ raw)]) /\
  (fire_and_forget (Control.greeting_payload (JS.lookup_last "id" kvs) greeting) <->
   JS.lookup_last "id" kvs = None).
Proof.
  intros Hp Hc. unfold Control.handler, Control.handler_body, Control.handler_catch. rewrite Hp. unfold get_prop. rewrite Hc.
  split; [|split].
  - intros Hn He. simpl. rewrite Hn. simpl. rewrite He. reflexivity.
  - intros e Hn. simpl. rewrite Hn. reflexivity.
  - destruct (JS.lookup_last "id" kvs); simpl; split; congruence || tauto.
Qed.

Lemma reset_enqueues_greeting_witness :
  trace (Control.handler_best_effort ok_control_env (Some (JStr "t1")) (reset_raw "x")) =
    [Log "[Reset] Received reset command for current session"; NewSessionCall;
     Enqueue (Control.greeting_payload (Some (JStr "x")) Control.greeting_best_effort)].
Proof.
  apply (proj1 (reset_enqueues_greeting Control.greeting_best_effort ok_control_env
                  (Some (JStr "t1")) (reset_raw "x")
                  [("command", JStr "reset"); ("id", JStr "x")] eq_refl eq_refl));
    reflexivity.
Defined.

Lemma empty_payload_acked :
  has_payload_field ["payload"; ""] = true /\
  JSON_parse "" = None /\
  acks (trace (Worker.reliable_iteration quiet_env "1-0" ["payload"; ""])) = ["1-0"].
Proof. repeat split; reflexivity. Qed.

(** Claim C8 (as amended). For a message read in reliable mode: when it has
    no payload field or its payload value is empty (the [!rawMessage]
    test), it is acknowledged at once and skipped, with no result; when its
    payload value is non-empty and does not parse as JSON, it is skipped
    without acknowledgement and without result, and the loop body ends
    normally ([continue]). *)
Theorem reliable_skip_unusable (env : TaskEnv) (mid : string) (fields : list string) :
  ((Worker.find_payload fields = None \/ Worker.find_payload fields = Some "") ->
     results (trace (Worker.reliable_body env mid fields)) = [] /\
     acks (trace (Worker.reliable_body env mid fields)) =
       match xack_error env with None => [mid] | Some _ => [] end) /\
  (forall raw, Worker.find_payload fields = Some raw -> raw <> "" ->
     JSON_parse raw = None ->
     results (trace (Worker.reliable_body env mid fields)) = [] /\
     acks (trace (Worker.reliable_body env mid fields)) = [] /\
     outcome (Worker.reliable_body env mid fields) = inl tt).
Proof.
  unfold Worker.reliable_body. split.
  - intros [H|H]; rewrite H; simpl; unfold durable;
      destruct (xack_error env); simpl; auto.
  - intros raw H Hne Hj. rewrite H.
    assert (Ht : JS.truthy (Some (JStr raw)) = true).
    { simpl. apply String.eqb_neq in Hne. now rewrite Hne. }
    rewrite Ht, Hj. simpl. auto.
Qed.

Lemma reliable_skip_unusable_witness :
  results (trace (Worker.reliable_body quiet_env "1-0" ["payload"; "not-json"])) = [] /\
  acks (trace (Worker.reliable_body quiet_env "1-0" ["payload"; "not-json"])) = [] /\
  outcome (Worker.reliable_body quiet_env "1-0" ["payload"; "not-json"]) = inl tt.
Proof.
  apply (proj2 (reliable_skip_unusable quiet_env "1-0" ["payload"; "not-json"]) "not-json").
  - reflexivity.
  - discriminate.
  - reflexivity.
Defined.

(** ** Further properties of the worker *)

(** Rendering a template only ever throws a [TypeError]. *)
Lemma template_or_exn (v : option json) (d : string) (t : list Action) (e : Exn) :
  template_or v d = (t, inr e) -> e = type_error.
Proof.
  unfold template_or, template, ret, throw.
  destruct (JS.truthy v); [|discriminate].
  destruct v as [x|]; [|discriminate].
  destruct (JS.to_string x); congruence.
Qed.

(** The payload scan of a stream entry with fields [kvs] returns the value of
    the first field named "payload" (a value spelled "payload" is never taken
    for a name), and the empty string when there is none. *)
Theorem find_payload_first (kvs : list (string * string)) :
  Worker.find_payload (flatten_fields kvs) =
  match find (fun kv => String.eqb (fst kv) "payload") kvs with
  | Some (_, v) => Some v
  | None => Some ""
  end.
Proof.
  induction kvs as [|[k v] kvs IH]; simpl; [reflexivity|].
  destruct (String.eqb k "payload"); [reflexivity | exact IH].
Qed.

(** A payload that parses to a non-null JSON value without a truthy
    [prompt] is logged and skipped: it is neither executed nor acknowledged
    (it stays pending in the consumer group) and no result is published. *)
Theorem reliable_missing_prompt (env : TaskEnv) (mid : string) (fields : list string)
    (raw : string) (payload : json) (prompt : option json) :
  Worker.find_payload fields = Some raw -> raw <> "" ->
  JSON_parse raw = Some payload ->
  get_prop payload "prompt" = ([], inl prompt) ->
  JS.truthy prompt = false ->
  trace (Worker.reliable_iteration env mid fields) =
    [Log ("Received message " ++ mid ++ ": " ++ raw); Log "Message missing prompt:"] /\
  outcome (Worker.reliable_body env mid fields) = inl tt.
Proof.
  intros Hf Hne Hj Hp Ht.
  assert (Hid : exists r, get_prop payload "id" = ([], r)).
  { destruct payload; simpl; eexists; reflexivity. }
  destruct Hid as [[i|e] Hid];
    [|unfold get_prop, throw, ret in Hid, Hp; destruct payload; congruence].
  assert (B : Worker.reliable_body env mid fields =
    ([Log ("Received message " ++ mid ++ ": " ++ raw); Log "Message missing prompt:"], inl tt)).
  { unfold Worker.reliable_body.
    rewrite Hf. apply String.eqb_neq in Hne. simpl JS.truthy. rewrite Hne. simpl negb.
    cbv iota beta. rewrite Hj. unfold bind at 2. rewrite Hid. cbv iota beta zeta.
    unfold bind at 2. rewrite Hp. cbv iota beta zeta. rewrite Ht. reflexivity. }
  unfold Worker.reliable_iteration. rewrite B. split; reflexivity.
Qed.

Lemma reliable_missing_prompt_witness :
  trace (Worker.reliable_iteration quiet_env "1-0"
           ["payload"; JSON_stringify (JObj [("id", JStr "t9"); ("prompt", JNum "1e-400")])]) =
    [Log ("Received message " ++ "1-0" ++ ": " ++
          JSON_stringify (JObj [("id", JStr "t9"); ("prompt", JNum "1e-400")]));
     Log "Message missing prompt:"] /\
  outcome (Worker.reliable_body quiet_env "1-0"
             ["payload"; JSON_stringify (JObj [("id", JStr "t9"); ("prompt", JNum "1e-400")])])
    = inl tt.
Proof.
  apply (reliable_missing_prompt quiet_env "1-0" _
           (JSON_stringify (JObj [("id", JStr "t9"); ("prompt", JNum "1e-400")]))
           (JObj [("id", JStr "t9"); ("prompt", JNum "1e-400")]) (Some (JNum "1e-400")));
    [reflexivity | discriminate | vm_compute; reflexivity | reflexivity | vm_compute; reflexivity].
Defined.

(** A payload that is JSON [null] makes the destructuring of the task throw:
    the loop logs an error and goes on, without acknowledging the message
    and without publishing any result. *)
Theorem reliable_null_payload (env : TaskEnv) (mid : string) (fields : list string)
    (raw : string) :
  Worker.find_payload fields = Some raw -> raw <> "" ->
  JSON_parse raw = Some JNull ->
  trace (Worker.reliable_iteration env mid fields) =
    [Log ("Received message " ++ mid ++ ": " ++ raw); Log "Worker loop error:"] /\
  outcome (Worker.reliable_body env mid fields) = inr type_error.
Proof.
  intros Hf Hne Hj.
  unfold Worker.reliable_iteration, Worker.reliable_body.
  rewrite Hf. apply String.eqb_neq in Hne. simpl JS.truthy. rewrite Hne.
  simpl. rewrite Hj. simpl. split; reflexivity.
Qed.

Lemma reliable_null_payload_witness :
  trace (Worker.reliable_iteration quiet_env "1-0" ["payload"; "null"]) =
    [Log ("Received message " ++ "1-0" ++ ": " ++ "null"); Log "Worker loop error:"] /\
  outcome (Worker.reliable_body quiet_env "1-0" ["payload"; "null"]) = inr type_error.
Proof.
  apply (reliable_null_payload quiet_env "1-0" ["payload"; "null"] "null");
    [reflexivity | discriminate | reflexivity].
Defined.

(** A task whose prompt, or whose truthy id, is an object carrying its own
    [toString] key cannot be rendered in the "Processing task" log line:
    the template literal throws, so the prompt is never sent, no result is
    published, the message is not acknowledged, and the loop only logs an
    error. *)
Theorem reliable_unrenderable_task (env : TaskEnv) (mid : string) (fields : list string)
    (raw : string) (kvs pk : list (string * json)) :
  Worker.find_payload fields = Some raw -> raw <> "" ->
  JSON_parse raw = Some (JObj kvs) ->
  JS.has_key "toString" pk = true ->
  (JS.lookup_last "prompt" kvs = Some (JObj pk) \/
   (JS.lookup_last "id" kvs = Some (JObj pk) /\ JS.truthy (JS.lookup_last "prompt" kvs) = true)) ->
  trace (Worker.reliable_iteration env mid fields) =
    [Log ("Received message " ++ mid ++ ": " ++ raw); Log "Worker loop error:"] /\
  outcome (Worker.reliable_body env mid fields) = inr type_error.
Proof.
  intros Hf Hne Hj Hk Hc.
  assert (B : Worker.reliable_body env mid fields =
    ([Log ("Received message " ++ mid ++ ": " ++ raw)], inr type_error)).
  { unfold Worker.reliable_body.
    rewrite Hf. apply String.eqb_neq in Hne. simpl JS.truthy. rewrite Hne. simpl negb.
    cbv iota beta. rewrite Hj. simpl get_prop. unfold bind at 2, ret. cbv iota beta zeta.
    unfold bind at 2, ret. cbv iota beta zeta.
    destruct Hc as [Hp | [Hi Hp]].
    - rewrite Hp. simpl negb. cbv iota. unfold Worker.dispatch.
      destruct (template_or_pure (JS.lookup_last "id" kvs) "") as [[s|e] E]; rewrite E;
        simpl; rewrite ?Hk; simpl; [reflexivity|].
      apply template_or_exn in E. subst e. reflexivity.
    - rewrite Hp. simpl negb. cbv iota. unfold Worker.dispatch, template_or.
      rewrite Hi. simpl. rewrite Hk. simpl. reflexivity. }
  unfold Worker.reliable_iteration. rewrite B. split; reflexivity.
Qed.

Lemma reliable_unrenderable_task_witness :
  trace (Worker.reliable_iteration quiet_env "1-0"
           ["payload"; JSON_stringify (JObj [("id", JStr "t3");
                                             ("prompt", JObj [("toString", JStr "x")])])]) =
    [Log ("Received message " ++ "1-0" ++ ": " ++
          JSON_stringify (JObj [("id", JStr "t3"); ("prompt", JObj [("toString", JStr "x")])]));
     Log "Worker loop error:"] /\
  outcome (Worker.reliable_body quiet_env "1-0"
             ["payload"; JSON_stringify (JObj [("id", JStr "t3");
                                               ("prompt", JObj [("toString", JStr "x")])])])
    = inr type_error.
Proof.
  apply (reliable_unrenderable_task quiet_env "1-0" _
           (JSON_stringify (JObj [("id", JStr "t3"); ("prompt", JObj [("toString", JStr "x")])]))
           [("id", JStr "t3"); ("prompt", JObj [("toString", JStr "x")])]
           [("toString", JStr "x")]);
    [reflexivity | discriminate | vm_compute; reflexivity | reflexivity | left; reflexivity].
Defined.

Lemma progresses_app (l1 l2 : list Action) :
  progresses (l1 ++ l2)%list = (progresses l1 ++ progresses l2)%list.
Proof.
  induction l1 as [|a l1 IH]; simpl; [reflexivity|].
  destruct a as [| [] | | | | | |]; simpl; now rewrite ?IH.
Qed.

(** Every progress record the subscription callback publishes carries the
    id of the task. *)
Lemma run_events_progress_ids (env : TaskEnv) (id : option json) (rt : string)
    (events : list AgentEvent) :
  Forall (fun r => exists ev d, r = Progress id ev d)
         (progresses (snd (Worker.run_events env id rt events))).
Proof.
  revert rt; induction events as [|ev events IH]; intros rt; simpl; [constructor|].
  destruct (Worker.run_events env id (Worker.collect rt ev) events) as [rt' acts'] eqn:E.
  specialize (IH (Worker.collect rt ev)). rewrite E in IH. simpl in *.
  rewrite progresses_app. apply Forall_app. split; [|exact IH].
  destruct (Worker.progress_of id ev) as [p|] eqn:Hp; simpl; [|constructor].
  assert (exists e d, p = Progress id e d) as (e & d & ->).
  { destruct ev; simpl in Hp;
      repeat match goal with _ : context [String.eqb ?a ?b] |- _ => destruct (String.eqb a b) end;
      inversion Hp; eauto. }
  unfold Worker.publish_progress; destruct (publish_error env _); simpl; eauto.
Qed.

Ltac task_cases :=
  repeat (simpl;
          match goal with
          | |- context [if ?b then _ else _] => destruct b
          | |- context [match publish_error ?e ?r with _ => _ end] =>
            destruct (publish_error e r)
          end).

(** The shape of a task's actions: the prompt call, then everything done
    while the prompt runs (the progress records, all carrying the task's
    id, and failed-progress logs, but no result and no acknowledgement),
    then the rest, which publishes no progress record.  Hence every
    progress record of a task is published before its result. *)
Theorem run_task_progress_before_result (env : TaskEnv) (mid : string)
    (id prompt : option json) :
  exists during after,
    trace (Worker.run_task env mid id prompt) = (PromptCall prompt :: during ++ after)%list /\
    Forall (fun r => exists ev d, r = Progress id ev d) (progresses during) /\
    results during = [] /\ acks during = [] /\
    progresses after = [].
Proof.
  unfold Worker.run_task. rewrite trace_try_finally.
  pose proof (run_events_no_result_no_ack env id "" (prompt_events env)) as [Hr Ha].
  pose proof (run_events_progress_ids env id "" (prompt_events env)) as Hp.
  destruct (Worker.run_events env id "" (prompt_events env)) as [rt acts] eqn:Ev.
  simpl in Hr, Ha, Hp.
  exists acts.
  destruct (template_pure id) as [[s|e] Ht]; rewrite Ht;
  destruct (prompt_error env) as [pe|]; simpl;
  unfold Worker.publish, durable, try_catch, bind, emit;
  task_cases; destruct (xack_error env); simpl; rewrite <- ?app_assoc; simpl;
  eexists; (split; [reflexivity|]); auto.
Qed.

(** Progress publishing is fire-and-forget: two runs of a task whose
    environments differ only in which progress records fail to publish
    publish the same results, acknowledge the same way and end the same
    way. *)
Theorem run_task_ignores_progress_failures (env env' : TaskEnv) (mid : string)
    (id prompt : option json) :
  prompt_events env = prompt_events env' ->
  prompt_error env = prompt_error env' ->
  (forall i st resp err,
     publish_error env (Result i st resp err) = publish_error env' (Result i st resp err)) ->
  xack_error env = xack_error env' ->
  results (trace (Worker.run_task env mid id prompt)) =
    results (trace (Worker.run_task env' mid id prompt)) /\
  acks (trace (Worker.run_task env mid id prompt)) =
    acks (trace (Worker.run_task env' mid id prompt)) /\
  outcome (Worker.run_task env mid id prompt) = outcome (Worker.run_task env' mid id prompt).
Proof.
  intros Hev Hpe Hpub Hx.
  unfold Worker.run_task, outcome. rewrite !trace_try_finally.
  pose proof (run_events_no_result_no_ack env id "" (prompt_events env)) as [Hr Ha].
  pose proof (run_events_no_result_no_ack env' id "" (prompt_events env')) as [Hr' Ha'].
  pose proof (run_events_text env id "" (prompt_events env)) as Htx.
  pose proof (run_events_text env' id "" (prompt_events env')) as Htx'.
  destruct (Worker.run_events env id "" (prompt_events env)) as [rt acts] eqn:Ev.
  destruct (Worker.run_events env' id "" (prompt_events env')) as [rt' acts'] eqn:Ev'.
  simpl in Hr, Ha, Hr', Ha', Htx, Htx'. rewrite <- Hev in Htx'. subst rt rt'.
  rewrite <- Hpe, <- Hx.
  destruct (template_pure id) as [[s|e] Ht]; rewrite Ht;
  destruct (prompt_error env) as [pe|]; simpl;
  unfold Worker.publish, durable, try_catch, bind, emit;
  repeat (simpl;
          match goal with
          | |- context [publish_error env' (Result ?i ?st ?r ?er)] => rewrite <- (Hpub i st r er)
          | E : publish_error env ?x = _ |- context [publish_error env ?x] => rewrite E
          | |- context [if ?b then _ else _] => destruct b
          | |- context [match publish_error env ?r with _ => _ end] =>
            destruct (publish_error env r) eqn:?
          end);
  destruct (xack_error env); simpl;
  rewrite ?results_app, ?acks_app, ?Hr, ?Ha, ?Hr', ?Ha'; simpl; auto.
Qed.

(** When the success record cannot be written, the failure goes through the
    task's [catch]: an error record carrying the publish failure's message
    is published instead (when that write succeeds), and it is the only
    result of the task. *)
Theorem success_publish_failure_reported (env : TaskEnv) (mid : string)
    (id prompt : option json) (s : string) (e : Exn) :
  template id = ([], inl s) ->
  prompt_error env = None ->
  publish_error env (Result id "success" (Some (assistant_text (prompt_events env))) None)
    = Some e ->
  publish_error env (Result id "error" None (Some (Worker.error_text (message e)))) = None ->
  results (trace (Worker.run_task env mid id prompt)) =
    [Result id "error" None (Some (Worker.error_text (message e)))].
Proof.
  intros Ht Hp Hs Herr. unfold Worker.run_task.
  rewrite trace_try_finally, results_app, results_durable by discriminate.
  pose proof (run_events_text env id "" (prompt_events env)) as Htxt.
  pose proof (run_events_no_result_no_ack env id "" (prompt_events env)) as [Hr _].
  destruct (Worker.run_events env id "" (prompt_events env)) as [rt acts] eqn:Ev.
  simpl in Htxt, Hr. subst rt.
  rewrite Hp. simpl. rewrite Ht. simpl.
  unfold Worker.publish, durable. rewrite Hs. simpl.
  rewrite Herr.
  destruct (String.eqb (message e) "Aborted"); simpl;
    rewrite !results_app, Hr; reflexivity.
Qed.

(** A task ends normally exactly when it published a result and its
    acknowledgement succeeded; otherwise the exception reaches the loop. *)
Theorem run_task_outcome (env : TaskEnv) (mid : string) (id prompt : option json) :
  outcome (Worker.run_task env mid id prompt) = inl tt <->
  results (trace (Worker.run_task env mid id prompt)) <> [] /\ xack_error env = None.
Proof.
  unfold Worker.run_task, outcome. rewrite !trace_try_finally.
  pose proof (run_events_no_result_no_ack env id "" (prompt_events env)) as [Hr Ha].
  destruct (Worker.run_events env id "" (prompt_events env)) as [rt acts] eqn:Ev.
  simpl in Hr, Ha.
  destruct (template_pure id) as [[s|e] Ht]; rewrite Ht;
  destruct (prompt_error env) as [pe|]; simpl;
  unfold Worker.publish, durable, try_catch, bind, emit;
  task_cases; destruct (xack_error env); simpl;
  rewrite ?results_app, ?Hr; simpl;
  (split; [intros H; first [discriminate H | split; [discriminate | reflexivity]]
          | intros [H1 H2]; first [discriminate H2 | exfalso; apply H1; reflexivity
                                  | reflexivity]]).
Qed.

Lemma run_task_ignores_progress_failures_witness :
  results (trace (Worker.run_task t2_env "2-0" (Some (JStr "t2")) (Some (JStr "go")))) =
    results (trace (Worker.run_task t2_progress_down_env "2-0" (Some (JStr "t2"))
                      (Some (JStr "go")))) /\
  acks (trace (Worker.run_task t2_env "2-0" (Some (JStr "t2")) (Some (JStr "go")))) =
    acks (trace (Worker.run_task t2_progress_down_env "2-0" (Some (JStr "t2"))
                   (Some (JStr "go")))) /\
  outcome (Worker.run_task t2_env "2-0" (Some (JStr "t2")) (Some (JStr "go"))) =
    outcome (Worker.run_task t2_progress_down_env "2-0" (Some (JStr "t2")) (Some (JStr "go"))).
Proof.
  apply run_task_ignores_progress_failures; intros; reflexivity.
Defined.

Lemma success_publish_failure_reported_witness :
  results (trace (Worker.run_task success_refused_env "1-0" (Some (JStr "t1"))
                    (Some (JStr "hello")))) =
    [Result (Some (JStr "t1")) "error" None
            (Some (Worker.error_text (message {| message := "OOM command not allowed" |})))].
Proof.
  apply (success_publish_failure_reported success_refused_env "1-0" (Some (JStr "t1"))
           (Some (JStr "hello")) "t1"); reflexivity.
Defined.

(** Rendering [`${v || d}`] fails exactly when rendering [`${v}`] fails. *)
Lemma template_or_agrees (v : option json) (d : string) :
  (exists s s', template v = ([], inl s) /\ template_or v d = ([], inl s')) \/
  (exists e, template v = ([], inr e) /\ template_or v d = ([], inr e)).
Proof.
  unfold template_or. destruct (JS.truthy v) eqn:T.
  - destruct (template_pure v) as [[s|e] H]; [left; exists s, s | right; exists e]; auto.
  - left. destruct v as [[]|]; simpl in T; try discriminate;
      do 2 eexists; split; reflexivity.
Qed.

(** The best-effort variants run a task as the reliable worker does, up to
    the acknowledgement and the text logged for a falsy id.  With a truthy
    id, the reliable worker's actions are exactly the best-effort ones
    followed by the acknowledgement (when [xack] succeeds).  For any id,
    the same holds once the log lines are set aside, so both publish the
    same progress records and the same results, whatever the runtime and
    Redis do; and when [xack] succeeds, both end with the same outcome. *)
Theorem best_effort_same_results (dflt : string) (env : TaskEnv) (mid : string)
    (id prompt : option json) :
  (JS.truthy id = true ->
     trace (Worker.run_task env mid id prompt) =
       (trace (BestEffort.run_task dflt env id prompt) ++
        match xack_error env with None => [Ack mid] | Some _ => [] end)%list) /\
  drop_logs (trace (Worker.run_task env mid id prompt)) =
    (drop_logs (trace (BestEffort.run_task dflt env id prompt)) ++
     match xack_error env with None => [Ack mid] | Some _ => [] end)%list /\
  results (trace (BestEffort.run_task dflt env id prompt)) =
    results (trace (Worker.run_task env mid id prompt)) /\
  (xack_error env = None ->
     outcome (Worker.run_task env mid id prompt) =
     outcome (BestEffort.run_task dflt env id prompt)).
Proof.
  assert (Hfin : trace (durable (Ack mid) (xack_error env)) =
                 match xack_error env with None => [Ack mid] | Some _ => [] end)
    by (destruct (xack_error env); reflexivity).
  split; [|split; [|split]].
  - intros T.
    assert (E : template_or id dflt = template id) by (unfold template_or; now rewrite T).
    unfold BestEffort.run_task, Worker.run_task. rewrite E, trace_try_finally, Hfin.
    reflexivity.
  - unfold BestEffort.run_task, Worker.run_task. rewrite trace_try_finally, Hfin.
    unfold drop_logs. rewrite filter_app. f_equal; [|destruct (xack_error env); reflexivity].
    destruct (Worker.run_events env id "" (prompt_events env)) as [rt acts] eqn:Ev.
    destruct (template_or_agrees id dflt) as [(s & s' & Ht & Hto) | (e & Ht & Hto)];
      rewrite Ht, Hto;
    destruct (prompt_error env) as [pe|]; simpl;
    unfold Worker.publish, durable, try_catch, bind, emit;
    task_cases; unfold trace; simpl; rewrite ?app_nil_r, ?filter_app; simpl; reflexivity.
  - unfold BestEffort.run_task, Worker.run_task.
    rewrite trace_try_finally, results_app, results_durable by discriminate.
    rewrite app_nil_r.
    pose proof (run_events_no_result_no_ack env id "" (prompt_events env)) as [Hr _].
    destruct (Worker.run_events env id "" (prompt_events env)) as [rt acts] eqn:Ev.
    simpl in Hr.
    destruct (template_or_agrees id dflt) as [(s & s' & Ht & Hto) | (e & Ht & Hto)];
      rewrite Ht, Hto;
    destruct (prompt_error env) as [pe|]; simpl;
    unfold Worker.publish, durable, try_catch, bind, emit;
    task_cases; unfold trace; simpl; rewrite ?app_nil_r, ?results_app, ?Hr; simpl; reflexivity.
  - intros Hx. unfold BestEffort.run_task, Worker.run_task, try_finally. rewrite Hx.
    cbn [durable].
    destruct (Worker.run_events env id "" (prompt_events env)) as [rt acts] eqn:Ev.
    destruct (template_or_agrees id dflt) as [(s & s' & Ht & Hto) | (e & Ht & Hto)];
      rewrite Ht, Hto;
    destruct (prompt_error env) as [pe|]; simpl;
    unfold Worker.publish, durable, try_catch, bind, emit;
    task_cases; reflexivity.
Qed.

Lemma best_effort_same_results_witness :
  trace (Worker.run_task t1_env "1-0" (Some (JStr "t1")) (Some (JStr "hello"))) =
    (trace (BestEffort.run_task "unknown" t1_env (Some (JStr "t1")) (Some (JStr "hello"))) ++
     [Ack "1-0"])%list /\
  outcome (Worker.run_task t1_env "1-0" (Some (JStr "t1")) (Some (JStr "hello"))) =
    outcome (BestEffort.run_task "unknown" t1_env (Some (JStr "t1")) (Some (JStr "hello"))).
Proof.
  pose proof (best_effort_same_results "unknown" t1_env "1-0" (Some (JStr "t1"))
                (Some (JStr "hello"))) as (Htr & _ & _ & Hout).
  split; [apply Htr; reflexivity | apply Hout; reflexivity].
Defined.

(** Actions without acknowledgement. *)
Definition no_ack {A} (m : M A) : Prop := acks (trace m) = [].

Lemma no_ack_bind {A B} (m : M A) (f : A -> M B) :
  no_ack m -> (forall x, no_ack (f x)) -> no_ack (bind m f).
Proof.
  unfold no_ack, trace, bind. destruct m as [t [a|e]]; simpl; intros Hm Hf; [|exact Hm].
  specialize (Hf a). destruct (f a) as [t' r']. simpl in *. now rewrite acks_app, Hm, Hf.
Qed.

Lemma no_ack_try_catch {A} (m : M A) (h : Exn -> M A) :
  no_ack m -> (forall e, no_ack (h e)) -> no_ack (try_catch m h).
Proof.
  unfold no_ack, trace, try_catch. destruct m as [t [a|e]]; simpl; intros Hm Hh; [exact Hm|].
  specialize (Hh e). destruct (h e) as [t' r']. simpl in *. now rewrite acks_app, Hm, Hh.
Qed.

Lemma no_ack_template (v : option json) : no_ack (template v).
Proof. unfold no_ack. destruct (template_pure v) as [r ->]. reflexivity. Qed.

Lemma no_ack_template_or (v : option json) (d : string) : no_ack (template_or v d).
Proof. unfold no_ack. destruct (template_or_pure v d) as [r ->]. reflexivity. Qed.

Lemma no_ack_get_prop (v : json) (k : string) : no_ack (get_prop v k).
Proof. unfold no_ack. destruct v; reflexivity. Qed.

Lemma no_ack_call (a : Action) (err : option Exn) :
  (forall m, a <> Ack m) -> no_ack (call a err).
Proof.
  unfold no_ack. intros Ha. destruct a; try (destruct err; reflexivity).
  exfalso; eapply Ha; reflexivity.
Qed.

Lemma no_ack_publish (env : TaskEnv) (r : WorkerResponse) : no_ack (Worker.publish env r).
Proof. unfold no_ack, Worker.publish, durable. destruct (publish_error env r); reflexivity. Qed.

Ltac no_ack_solve :=
  repeat first
    [ apply no_ack_bind; [|intros ?]
    | apply no_ack_try_catch; [|intros ?]
    | apply no_ack_template | apply no_ack_template_or | apply no_ack_get_prop
    | apply no_ack_publish
    | apply no_ack_call; discriminate
    | match goal with
      | |- no_ack (match ?x with _ => _ end) => destruct x eqn:?
      | |- no_ack (if ?b then _ else _) => destruct b
      | E : Worker.run_events ?env ?id ?rt ?evs = (_, ?acts) |- no_ack (emits ?acts) =>
        unfold no_ack; simpl;
        pose proof (proj2 (run_events_no_result_no_ack env id rt evs)) as Hna;
        rewrite E in Hna; exact Hna
      end
    | reflexivity ].

Lemma no_ack_best_effort_run_task (dflt : string) (env : TaskEnv) (id prompt : option json) :
  no_ack (BestEffort.run_task dflt env id prompt).
Proof. unfold BestEffort.run_task. no_ack_solve. Qed.

(** The best-effort variants pop their task off a list ([BLPOP]): they
    never acknowledge anything, whatever the message and whatever the
    runtime does, so a task lost in a crash is not redelivered. *)
Theorem best_effort_never_acks (env : TaskEnv) (reset_error : option Exn) (raw : string) :
  acks (trace (BestEffort.iteration (BestEffort.body_v1 env reset_error raw))) = [] /\
  acks (trace (BestEffort.iteration (BestEffort.body_v2 env raw))) = [].
Proof.
  split; change (no_ack (BestEffort.iteration (BestEffort.body_v1 env reset_error raw)))
    || change (no_ack (BestEffort.iteration (BestEffort.body_v2 env raw)));
  unfold BestEffort.iteration, BestEffort.body_v1, BestEffort.body_v2;
  no_ack_solve; apply no_ack_best_effort_run_task.
Qed.

(** In the first best-effort variant, a task with a truthy [reset] flag
    (and an id that renders) starts a new session before anything else is
    done with it: the [newSession] call comes right after the two log lines
    ("Received message: ..." and a "Resetting agent context for task ..."
    line, whose rendered id is left open here), before any prompt.  If the
    reset is rejected, the task is dropped there (its prompt is never
    sent).  A reset task without a prompt is a silent reset: no "missing
    prompt" log, and the iteration ends normally. *)
Theorem v1_reset_first (env : TaskEnv) (reset_error : option Exn) (raw : string)
    (kvs : list (string * json)) :
  JSON_parse raw = Some (JObj kvs) ->
  JS.truthy (JS.lookup_last "reset" kvs) = true ->
  (exists s, template_or (JS.lookup_last "id" kvs) "unknown" = ([], inl s)) ->
  exists s rest,
    trace (BestEffort.body_v1 env reset_error raw) =
      ([Log ("Received message: " ++ raw); Log ("Resetting agent context for task " ++ s);
        NewSessionCall] ++ rest)%list /\
    (forall e, reset_error = Some e ->
       rest = [] /\ outcome (BestEffort.body_v1 env reset_error raw) = inr e) /\
    (reset_error = None -> JS.truthy (JS.lookup_last "prompt" kvs) = false ->
       rest = [] /\ outcome (BestEffort.body_v1 env reset_error raw) = inl tt).
Proof.
  intros Hj Hr [s Ht]. exists s.
  unfold BestEffort.body_v1. rewrite Hj.
  cbv beta iota zeta delta [get_prop bind ret emit]. rewrite Hr, Ht.
  cbv beta iota zeta delta [bind ret emit call].
  destruct reset_error as [e|].
  - eexists; split; [reflexivity|]. split; [|discriminate].
    intros e' He'. inversion He'; subst. split; reflexivity.
  - destruct (JS.truthy (JS.lookup_last "prompt" kvs)) eqn:Hp; simpl.
    + destruct (template_pure (JS.lookup_last "prompt" kvs)) as [[s2|e2] H2]; rewrite H2;
      [generalize (BestEffort.run_task "unknown" env (JS.lookup_last "id" kvs)
                     (JS.lookup_last "prompt" kvs)); intros [t r] |]; simpl;
      (eexists; split; [reflexivity|]); (split; [discriminate|]);
      intros _ Hf; discriminate Hf.
    + eexists; split; [reflexivity|]. split; [discriminate|].
      intros _ _. split; reflexivity.
Qed.

Lemma v1_reset_first_witness :
  exists s rest,
    trace (BestEffort.body_v1 quiet_env None (JSON_stringify (JObj [("id", JStr "t4");
                                                                    ("reset", JBool true)]))) =
      ([Log ("Received message: " ++ JSON_stringify (JObj [("id", JStr "t4"); ("reset", JBool true)]));
        Log ("Resetting agent context for task " ++ s); NewSessionCall] ++ rest)%list /\
    (forall e, @None Exn = Some e ->
       rest = [] /\ outcome (BestEffort.body_v1 quiet_env None
                       (JSON_stringify (JObj [("id", JStr "t4"); ("reset", JBool true)]))) = inr e) /\
    (@None Exn = None ->
       JS.truthy (JS.lookup_last "prompt" [("id", JStr "t4"); ("reset", JBool true)]) = false ->
       rest = [] /\ outcome (BestEffort.body_v1 quiet_env None
                       (JSON_stringify (JObj [("id", JStr "t4"); ("reset", JBool true)]))) = inl tt).
Proof.
  apply (v1_reset_first quiet_env None _ [("id", JStr "t4"); ("reset", JBool true)]);
    [vm_compute; reflexivity | reflexivity | exists "t4"; reflexivity].
Defined.

(** The control handler ignores every signal whose [command] is none of
    "stop", "steer" and "reset": no log line, no call, normal end.  A
    signal that is not JSON, or is JSON [null] (whose [command] cannot be
    read), only produces the "[Control]" error line. *)
Theorem control_ignores_unknown (greeting : string) (env : ControlEnv)
    (currentTaskId : option json) (raw : string) :
  (forall signal command,
     JSON_parse raw = Some signal ->
     get_prop signal "command" = ([], inl command) ->
     JS.is_str command "stop" = false -> JS.is_str command "steer" = false ->
     JS.is_str command "reset" = false ->
     Control.handler greeting env currentTaskId raw = ([], inl tt)) /\
  ((JSON_parse raw = None \/ JSON_parse raw = Some JNull) ->
   Control.handler greeting env currentTaskId raw =
     ([Log ("[Control] Failed to parse control signal as JSON: " ++ raw)], inl tt)).
Proof.
  split.
  - intros signal command Hj Hc Hs Hst Hr.
    unfold Control.handler, Control.handler_body, Control.handler_catch. rewrite Hj. unfold bind at 1. rewrite Hc.
    cbv beta iota zeta. rewrite Hs, Hst. simpl. rewrite Hr. reflexivity.
  - intros [Hj | Hj]; unfold Control.handler, Control.handler_body, Control.handler_catch; rewrite Hj; reflexivity.
Qed.

Lemma control_ignores_unknown_witness :
  Control.handler_reliable ok_control_env None
    (JSON_stringify (JObj [("command", JStr "pause")])) = ([], inl tt) /\
  Control.handler_reliable ok_control_env None "null" =
    ([Log ("[Control] Failed to parse control signal as JSON: " ++ "null")], inl tt).
Proof.
  split.
  - apply (proj1 (control_ignores_unknown Control.greeting_reliable ok_control_env None
                    (JSON_stringify (JObj [("command", JStr "pause")])))
             (JObj [("command", JStr "pause")]) (Some (JStr "pause")));
      [vm_compute; reflexivity | reflexivity.. ].
  - apply (proj2 (control_ignores_unknown Control.greeting_reliable ok_control_env None "null")).
    right; reflexivity.
Defined.

(** The first variant's handler knows no "reset": a reset signal, like any
    JSON signal whose [command] is neither "stop" nor "steer", does
    nothing at all (no new session, no greeting, no log). *)
Theorem legacy_ignores_reset (env : ControlEnv) (currentTaskId : option json) (raw : string)
    (signal : json) (command : option json) :
  JSON_parse raw = Some signal ->
  get_prop signal "command" = ([], inl command) ->
  JS.is_str command "stop" = false -> JS.is_str command "steer" = false ->
  BestEffort.legacy_handler env currentTaskId raw = ([], inl tt).
Proof.
  intros Hj Hc Hs Hst.
  unfold BestEffort.legacy_handler. rewrite Hj. unfold bind at 1. rewrite Hc.
  cbv beta iota zeta. rewrite Hs, Hst. reflexivity.
Qed.

Lemma legacy_ignores_reset_witness :
  BestEffort.legacy_handler ok_control_env (Some (JStr "t1")) (reset_raw "t1") = ([], inl tt).
Proof.
  apply (legacy_ignores_reset ok_control_env (Some (JStr "t1")) (reset_raw "t1")
           (JObj [("command", JStr "reset"); ("id", JStr "t1")]) (Some (JStr "reset")));
    [vm_compute; reflexivity | reflexivity.. ].
Defined.

(** In the first variant's handler, a signal that is not JSON is ignored
    silently unless it is the plain text "STOP", which aborts the agent.
    That abort is made from the [catch] block, outside any [try]: when it
    throws, the exception escapes the handler. *)
Theorem legacy_plain_stop (env : ControlEnv) (currentTaskId : option json) (raw : string) :
  JSON_parse raw = None ->
  BestEffort.legacy_handler env currentTaskId raw =
    if String.eqb raw "STOP" then
      ([Log "[Interrupt] Received plain STOP"; AbortCall],
       match abort_error env with None => inl tt | Some e => inr e end)
    else ([], inl tt).
Proof.
  intros Hj. unfold BestEffort.legacy_handler. rewrite Hj. simpl.
  destruct (String.eqb raw "STOP"); [|reflexivity].
  unfold call. destruct (abort_error env); reflexivity.
Qed.

Lemma legacy_plain_stop_witness :
  BestEffort.legacy_handler {| abort_error := Some {| message := "no active run" |};
                               steer_error := None; new_session_error := None;
                               enqueue_error := None |} None "STOP" =
    ([Log "[Interrupt] Received plain STOP"; AbortCall], inr {| message := "no active run" |}).
Proof.
  apply (legacy_plain_stop {| abort_error := Some {| message := "no active run" |};
                              steer_error := None; new_session_error := None;
                              enqueue_error := None |} None "STOP").
  vm_compute; reflexivity.
Defined.

Lemma prefix_app (s t : string) : String.prefix s (s ++ t) = true.
Proof.
  induction s as [|a s IH]; simpl; [destruct t; reflexivity|].
  destruct (Ascii.ascii_dec a a) as [_|n]; [exact IH | now destruct n].
Qed.

Lemma prefix_true (s1 s2 : string) :
  String.prefix s1 s2 = true -> exists t, s2 = s1 ++ t.
Proof.
  revert s2; induction s1 as [|a s1 IH]; intros s2 H; simpl; [eauto|].
  destruct s2 as [|b s2]; simpl in H; [discriminate|].
  destruct (Ascii.ascii_dec a b) as [->|]; [|discriminate].
  destruct (IH s2 H) as [t ->]. eauto.
Qed.

Lemma index_cons (s1 : string) (b : ascii) (s2 : string) :
  String.index 0 s1 (String b s2) =
  if String.prefix s1 (String b s2) then Some 0
  else match String.index 0 s1 s2 with Some n => Some (S n) | None => None end.
Proof. reflexivity. Qed.

(** [msg.includes(sub)] holds exactly when [sub] occurs in [msg]. *)
Lemma includes_spec (msg sub : string) :
  Startup.includes msg sub = true <-> exists pre post, msg = pre ++ sub ++ post.
Proof.
  unfold Startup.includes. split.
  - destruct (String.index 0 sub msg) as [m|] eqn:E; [|discriminate]. intros _.
    revert m E; induction msg as [|b msg IH]; intros m E.
    + destruct sub; [|discriminate]. exists "", ""; reflexivity.
    + rewrite index_cons in E.
      destruct (String.prefix sub (String b msg)) eqn:P.
      * destruct (prefix_true _ _ P) as [t Ht]. exists "", t. exact Ht.
      * destruct (String.index 0 sub msg) as [k|] eqn:E'; [|discriminate].
        destruct (IH k eq_refl) as (pre & post & ->).
        exists (String b pre), post; reflexivity.
  - intros (pre & post & ->).
    induction pre as [|a pre IH].
    + simpl. destruct (sub ++ post) as [|b r] eqn:Hs.
      * destruct sub; [reflexivity | discriminate].
      * rewrite index_cons, <- Hs, prefix_app. reflexivity.
    + simpl (String a pre ++ sub ++ post). rewrite index_cons.
      destruct (String.prefix sub (String a (pre ++ sub ++ post))); [reflexivity|].
      destruct (String.index 0 sub (pre ++ sub ++ post)); [reflexivity | discriminate].
Qed.

(** Startup never fails on the consumer group: creating it logs a line; a
    rejection whose message contains "BUSYGROUP" anywhere (the group
    already exists) is silent; any other rejection is logged with its
    message, and the worker goes on in every case. *)
Theorem ensure_group_spec (xgroup_error : option Exn) :
  outcome (Startup.ensure_group xgroup_error) = inl tt /\
  (xgroup_error = None ->
   trace (Startup.ensure_group xgroup_error) =
     [Log "Created consumer group agent-group for stream agent_in"]) /\
  (forall e, xgroup_error = Some e ->
   ((exists pre post, message e = pre ++ "BUSYGROUP" ++ post) /\
    trace (Startup.ensure_group xgroup_error) = []) \/
   (~ (exists pre post, message e = pre ++ "BUSYGROUP" ++ post) /\
    trace (Startup.ensure_group xgroup_error) =
      [Log ("Failed to create consumer group: " ++ message e)])).
Proof.
  destruct xgroup_error as [e|].
  - unfold Startup.ensure_group. simpl.
    destruct (Startup.includes (message e) "BUSYGROUP") eqn:I; simpl.
    + split; [reflexivity|]. split; [discriminate|].
      intros e' He'. inversion He'; subst. left. split; [|reflexivity].
      apply (proj1 (includes_spec (message e') "BUSYGROUP")); exact I.
    + split; [reflexivity|]. split; [discriminate|].
      intros e' He'. inversion He'; subst. right. split; [|reflexivity].
      rewrite <- (includes_spec (message e') "BUSYGROUP"), I. discriminate.
  - split; [reflexivity|]. split; [reflexivity|]. discriminate.
Qed.

(** *** Serializing and parsing the greeting task *)

Section Serialization.

Lemma stringify_obj (kvs : list (string * json)) :
  JSON_stringify (JObj kvs) = "{" ++ obj_body kvs true.
Proof. reflexivity. Qed.

Lemma string_length_app (a b : string) : String.length (a ++ b) = String.length a + String.length b.
Proof. induction a as [|c a IH]; simpl; auto. Qed.

Lemma length_list_ascii (s : string) : length (list_ascii_of_string s) = String.length s.
Proof. induction s as [|c s IH]; simpl; auto. Qed.

Lemma quoted_app (k x : string) : quoted k ++ x = String Json.dquote (escape k ++ String Json.dquote x).
Proof. unfold quoted. simpl. rewrite string_app_assoc. reflexivity. Qed.

Local Opaque quoted.

Lemma no_ctrl_cons (c : ascii) (s : string) :
  no_ctrl (String c s) -> 32 <= nat_of_ascii c /\ no_ctrl s.
Proof.
  unfold no_ctrl. simpl. intros H. split; [apply H; left; reflexivity|].
  intros c' Hc'. apply H. right. exact Hc'.
Qed.

(** The string literal written by [JSON_stringify] is read back by the
    parser, for a string without control characters. *)
Lemma string_body_escape (s rest : string) (acc : list ascii) :
  no_ctrl s ->
  Json.string_body (list_ascii_of_string (escape s ++ String Json.dquote rest)) acc =
    Some ((rev acc ++ list_ascii_of_string s)%list, list_ascii_of_string rest).
Proof.
  revert acc; induction s as [|c s IH]; intros acc Hs.
  - simpl. now rewrite app_nil_r.
  - apply no_ctrl_cons in Hs as [Hc Hs].
    simpl escape.
    destruct (c =? Json.dquote)%char eqn:E1; [apply Ascii.eqb_eq in E1; subst c|].
    + simpl. rewrite IH by exact Hs. simpl. now rewrite <- app_assoc.
    + destruct (c =? "\")%char eqn:E2; [apply Ascii.eqb_eq in E2; subst c|].
      * simpl. rewrite IH by exact Hs. simpl. now rewrite <- app_assoc.
      * simpl list_ascii_of_string. simpl Json.string_body. rewrite E1, E2.
        assert (Hl : Nat.ltb (nat_of_ascii c) 32 = false) by (apply Nat.ltb_ge; exact Hc).
        rewrite Hl, IH by exact Hs. simpl. now rewrite <- app_assoc.
Qed.

Lemma value_quoted (f : nat) (s rest : string) :
  no_ctrl s ->
  Json.value (S f) (list_ascii_of_string (quoted s ++ rest)) =
    Some (JStr s, list_ascii_of_string rest).
Proof.
  intros Hs. rewrite quoted_app. simpl list_ascii_of_string.
  simpl Json.value. rewrite string_body_escape by exact Hs. simpl.
  now rewrite string_of_list_ascii_of_string.
Qed.

Lemma obj_body_cons (k2 v2 : string) (r : list (string * string)) (rest : string) :
  obj_body (str_obj ((k2, v2) :: r)) false ++ rest =
    String "," (quoted k2 ++ ":" ++ quoted v2 ++ obj_body (str_obj r) false ++ rest).
Proof. simpl. rewrite string_app_assoc. simpl. now rewrite string_app_assoc. Qed.

(** One member [k: v] of an object, with a string value. *)
Lemma members_step (f : nat) (k v tail : string) (acc : list (string * json)) :
  no_ctrl k -> no_ctrl v ->
  Json.members (S (S f)) (list_ascii_of_string (quoted k ++ ":" ++ quoted v ++ tail)) acc =
  match Json.skip_ws (list_ascii_of_string tail) with
  | c3 :: r4 =>
    if (c3 =? ",")%char then Json.members (S f) r4 ((k, JStr v) :: acc)
    else if (c3 =? "}")%char then Some (JObj (rev ((k, JStr v) :: acc)), r4)
    else None
  | [] => None
  end.
Proof.
  intros Hk Hv. rewrite (quoted_app k). remember (S f) as g eqn:Hg. simpl.
  rewrite string_body_escape by exact Hk. simpl. subst g.
  rewrite value_quoted by exact Hv. rewrite string_of_list_ascii_of_string. reflexivity.
Qed.

Lemma members_strings (r : list (string * string)) (k v : string)
    (acc : list (string * json)) (f : nat) (rest : string) :
  no_ctrl k -> no_ctrl v ->
  Forall (fun kv => no_ctrl (fst kv) /\ no_ctrl (snd kv)) r ->
  length r + 2 <= f ->
  Json.members f (list_ascii_of_string
                    (quoted k ++ ":" ++ quoted v ++ obj_body (str_obj r) false ++ rest)) acc =
    Some (JObj (rev acc ++ (k, JStr v) :: str_obj r)%list, list_ascii_of_string rest).
Proof.
  revert k v acc f; induction r as [|[k2 v2] r IH]; intros k v acc f Hk Hv Hr Hf;
    (destruct f as [|[|f]]; [simpl in Hf; lia | simpl in Hf; lia |]);
    rewrite members_step by assumption.
  - reflexivity.
  - apply Forall_cons_iff in Hr as [[Hk2 Hv2] Hr]. simpl in Hk2, Hv2.
    rewrite obj_body_cons.
    remember (quoted k2 ++ ":" ++ quoted v2 ++ obj_body (str_obj r) false ++ rest) as T eqn:HT.
    remember (S f) as g eqn:Hg. simpl. subst T g.
    rewrite (IH k2 v2 _ (S f)) by (auto; simpl in Hf; lia).
    simpl. now rewrite <- app_assoc.
Qed.

Lemma obj_body_length (kvs : list (string * string)) (first : bool) :
  length kvs < String.length (obj_body (str_obj kvs) first).
Proof.
  revert first; induction kvs as [|[k v] r IH]; intros first; simpl; [lia|].
  rewrite !string_length_app. simpl. rewrite string_length_app.
  specialize (IH false). lia.
Qed.

Lemma value_obj (n : nat) (T : string) (t : list ascii) :
  list_ascii_of_string T = Json.dquote :: t ->
  Json.value (S n) (list_ascii_of_string (String "{" T)) = Json.members n (list_ascii_of_string T) [].
Proof.
  intros Ht. change (list_ascii_of_string (String "{" T)) with ("{"%char :: list_ascii_of_string T).
  rewrite Ht. reflexivity.
Qed.

(** An object whose keys and values are strings without control
    characters is read back by [JSON.parse] as it was written by
    [JSON.stringify]. *)
Lemma str_obj_round_trip (k v : string) (r : list (string * string)) :
  no_ctrl k -> no_ctrl v ->
  Forall (fun kv => no_ctrl (fst kv) /\ no_ctrl (snd kv)) r ->
  JSON_parse (JSON_stringify (JObj (str_obj ((k, v) :: r)))) = Some (JObj (str_obj ((k, v) :: r))).
Proof.
  intros Hk Hv Hr. unfold JSON_parse. rewrite stringify_obj.
  pose proof (obj_body_length ((k, v) :: r) true) as Hlen.
  assert (E : "{" ++ obj_body (str_obj ((k, v) :: r)) true =
              String "{" (quoted k ++ ":" ++ quoted v ++ obj_body (str_obj r) false ++ "")).
  { simpl. now rewrite string_app_nil_r. }
  rewrite E.
  rewrite (value_obj _ _ (list_ascii_of_string (escape k ++ String Json.dquote
             (":" ++ quoted v ++ obj_body (str_obj r) false ++ ""))))
    by (rewrite quoted_app; reflexivity).
  assert (Hf : length r + 2 <= length (list_ascii_of_string (String "{"
                 (quoted k ++ ":" ++ quoted v ++ obj_body (str_obj r) false ++ "")))).
  { simpl list_ascii_of_string. simpl length. rewrite length_list_ascii, string_app_nil_r.
    simpl in Hlen. rewrite !string_length_app in Hlen |- *. simpl in Hlen |- *.
    rewrite ?string_length_app in Hlen |- *. lia. }
  rewrite members_strings by auto.
  reflexivity.
Qed.

End Serialization.

Lemma no_ctrl_check (s : string) :
  forallb (fun c => Nat.leb 32 (nat_of_ascii c)) (list_ascii_of_string s) = true -> no_ctrl s.
Proof.
  unfold no_ctrl. intros H c Hc. rewrite forallb_forall in H.
  apply Nat.leb_le. exact (H c Hc).
Qed.

Lemma greeting_payload_str_obj (tid : option json) (g : string) :
  (tid = None \/ exists t, tid = Some (JStr t) /\ no_ctrl t) -> no_ctrl g ->
  exists k v r,
    Control.greeting_payload tid g = JObj (str_obj ((k, v) :: r)) /\
    no_ctrl k /\ no_ctrl v /\ Forall (fun kv => no_ctrl (fst kv) /\ no_ctrl (snd kv)) r.
Proof.
  intros Ht Hg.
  assert (Hsrc : no_ctrl "source") by (apply no_ctrl_check; reflexivity).
  assert (Hint : no_ctrl "internal") by (apply no_ctrl_check; reflexivity).
  assert (Hpr : no_ctrl "prompt") by (apply no_ctrl_check; reflexivity).
  destruct Ht as [-> | (t & -> & Ht)].
  - exists "source", "internal", [("prompt", g)].
    repeat split; auto.
  - exists "id", t, [("source", "internal"); ("prompt", g)].
    repeat split; auto. apply no_ctrl_check; reflexivity.
Qed.

(** The greeting task that a reset signal enqueues, serialized with
    [JSON.stringify], is read back by [JSON.parse] as the same object: its
    id (absent, or a string) and its prompt survive the trip through the
    input stream, for any greeting without control characters. *)
Theorem greeting_round_trip (tid : option json) (g : string) :
  (tid = None \/ exists t, tid = Some (JStr t) /\ no_ctrl t) -> no_ctrl g ->
  JSON_parse (JSON_stringify (Control.greeting_payload tid g)) =
    Some (Control.greeting_payload tid g).
Proof.
  intros Ht Hg.
  destruct (greeting_payload_str_obj tid g Ht Hg) as (k & v & r & -> & Hk & Hv & Hr).
  apply str_obj_round_trip; assumption.
Qed.

Lemma greeting_round_trip_witness :
  JSON_parse (JSON_stringify (Control.greeting_payload (Some (JStr "t1")) Control.greeting_reliable)) =
    Some (Control.greeting_payload (Some (JStr "t1")) Control.greeting_reliable).
Proof.
  apply greeting_round_trip; [right; exists "t1"; split; [reflexivity|] |];
    apply no_ctrl_check; reflexivity.
Defined.

(** What a reset signal enqueues is the greeting task carrying the
    signal's id. *)
Lemma handler_reset_enqueue (greeting : string) (env : ControlEnv) (slot : option json)
    (raw : string) (kvs : list (string * json)) (p : json) :
  JSON_parse raw = Some (JObj kvs) ->
  JS.lookup_last "command" kvs = Some (JStr "reset") ->
  In (Enqueue p) (trace (Control.handler greeting env slot raw)) ->
  p = Control.greeting_payload (JS.lookup_last "id" kvs) greeting.
Proof.
  intros Hj Hc H. unfold Control.handler, Control.handler_body, Control.handler_catch in H. rewrite Hj in H.
  cbv beta iota zeta delta [get_prop bind ret] in H. rewrite Hc in H. simpl in H.
  unfold call, durable in H.
  destruct (new_session_error env); destruct (enqueue_error env); simpl in H;
    intuition congruence.
Qed.

(** A reset signal and the reliable worker compose: the greeting task that
    the reset enqueues, once read from the input stream, is dispatched as
    a task with the reset signal's id (absent, or a string) and the
    greeting as its prompt: it is logged, run and acknowledged like any
    other task. *)
Theorem reset_greeting_dispatched (genv : ControlEnv) (slot : option json) (raw : string)
    (kvs : list (string * json)) (env : TaskEnv) (mid : string) (p : json) :
  JSON_parse raw = Some (JObj kvs) ->
  JS.lookup_last "command" kvs = Some (JStr "reset") ->
  (JS.lookup_last "id" kvs = None \/
   exists t, JS.lookup_last "id" kvs = Some (JStr t) /\ no_ctrl t) ->
  In (Enqueue p) (trace (Control.handler_reliable genv slot raw)) ->
  trace (Worker.reliable_body env mid ["payload"; JSON_stringify p]) =
    Log ("Received message " ++ mid ++ ": " ++ JSON_stringify p) ::
    Log ("Processing task " ++
         match JS.lookup_last "id" kvs with Some (JStr t) => t | _ => "" end ++
         ": " ++ Control.greeting_reliable) ::
    trace (Worker.run_task env mid (JS.lookup_last "id" kvs)
             (Some (JStr Control.greeting_reliable))) /\
  outcome (Worker.reliable_body env mid ["payload"; JSON_stringify p]) =
    outcome (Worker.run_task env mid (JS.lookup_last "id" kvs)
               (Some (JStr Control.greeting_reliable))).
Proof.
  intros Hj Hc Hid Hin.
  pose proof (handler_reset_enqueue _ _ _ _ _ _ Hj Hc Hin) as ->.
  assert (Hg : no_ctrl Control.greeting_reliable) by (apply no_ctrl_check; reflexivity).
  pose proof (greeting_round_trip _ _ Hid Hg) as Hrt.
  destruct (greeting_payload_str_obj _ _ Hid Hg) as (k & v & r & Hp & _).
  revert Hid Hrt Hp.
  generalize (JS.lookup_last "id" kvs) as tid. intros tid Hid Hrt Hp.
  assert (Htr : JS.truthy (Some (JStr (JSON_stringify (Control.greeting_payload tid
                  Control.greeting_reliable)))) = true).
  { unfold Control.greeting_payload. rewrite stringify_obj. reflexivity. }
  assert (Hf : forall x, Worker.find_payload ["payload"; x] = Some x) by reflexivity.
  unfold Worker.reliable_body, Worker.dispatch. rewrite Hf. cbv beta iota.
  rewrite Htr, Hrt.
  remember (Worker.run_task env mid) as RT eqn:HRT.
  destruct Hid as [-> | (t & -> & _)].
  - simpl.
    assert (L1 : JS.lookup_last "id" [("source", JStr "internal");
                                      ("prompt", JStr Control.greeting_reliable)] = None)
      by reflexivity.
    assert (L2 : JS.lookup_last "prompt" [("source", JStr "internal");
                                          ("prompt", JStr Control.greeting_reliable)] =
                 Some (JStr Control.greeting_reliable)) by reflexivity.
    rewrite L1, L2. simpl.
    destruct (RT None (Some (JStr Control.greeting_reliable))).
    split; reflexivity.
  - simpl.
    assert (L1 : JS.lookup_last "id" [("id", JStr t); ("source", JStr "internal");
                                      ("prompt", JStr Control.greeting_reliable)] = Some (JStr t))
      by reflexivity.
    assert (L2 : JS.lookup_last "prompt" [("id", JStr t); ("source", JStr "internal");
                                          ("prompt", JStr Control.greeting_reliable)] =
                 Some (JStr Control.greeting_reliable)) by reflexivity.
    rewrite L1, L2. simpl.
    unfold template_or.
    destruct (JS.truthy (Some (JStr t))) eqn:T.
    + simpl. destruct (RT (Some (JStr t)) (Some (JStr Control.greeting_reliable))).
      split; reflexivity.
    + simpl in T. apply negb_false_iff, String.eqb_eq in T. subst t. simpl.
      destruct (RT (Some (JStr "")) (Some (JStr Control.greeting_reliable))).
      split; reflexivity.
Qed.

Lemma reset_greeting_dispatched_witness :
  trace (Worker.reliable_body quiet_env "3-0"
           ["payload"; JSON_stringify (Control.greeting_payload (Some (JStr "t1"))
                                         Control.greeting_reliable)]) =
    Log ("Received message " ++ "3-0" ++ ": " ++
         JSON_stringify (Control.greeting_payload (Some (JStr "t1")) Control.greeting_reliable)) ::
    Log ("Processing task " ++ "t1" ++ ": " ++ Control.greeting_reliable) ::
    trace (Worker.run_task quiet_env "3-0" (Some (JStr "t1"))
             (Some (JStr Control.greeting_reliable))) /\
  outcome (Worker.reliable_body quiet_env "3-0"
             ["payload"; JSON_stringify (Control.greeting_payload (Some (JStr "t1"))
                                           Control.greeting_reliable)]) =
    outcome (Worker.run_task quiet_env "3-0" (Some (JStr "t1"))
               (Some (JStr Control.greeting_reliable))).
Proof.
  apply (reset_greeting_dispatched ok_control_env None (reset_raw "t1")
           [("command", JStr "reset"); ("id", JStr "t1")]).
  - vm_compute; reflexivity.
  - reflexivity.
  - right. exists "t1". split; [reflexivity | apply no_ctrl_check; reflexivity].
  - vm_compute. intuition.
Defined.

(** The same composition in the second best-effort variant: the greeting
    that its reset pushes onto the input list is popped and run as a task
    with the reset signal's id and the greeting as its prompt. *)
Theorem reset_greeting_dispatched_best_effort (genv : ControlEnv) (slot : option json)
    (raw : string) (kvs : list (string * json)) (env : TaskEnv) (p : json) :
  JSON_parse raw = Some (JObj kvs) ->
  JS.lookup_last "command" kvs = Some (JStr "reset") ->
  (JS.lookup_last "id" kvs = None \/
   exists t, JS.lookup_last "id" kvs = Some (JStr t) /\ no_ctrl t) ->
  In (Enqueue p) (trace (Control.handler_best_effort genv slot raw)) ->
  trace (BestEffort.body_v2 env (JSON_stringify p)) =
    Log ("Received message: " ++ JSON_stringify p) ::
    Log ("Processing task " ++
         match JS.lookup_last "id" kvs with Some (JStr t) => t | _ => "" end ++
         ": " ++ Control.greeting_best_effort) ::
    trace (BestEffort.run_task "" env (JS.lookup_last "id" kvs)
             (Some (JStr Control.greeting_best_effort))) /\
  outcome (BestEffort.body_v2 env (JSON_stringify p)) =
    outcome (BestEffort.run_task "" env (JS.lookup_last "id" kvs)
               (Some (JStr Control.greeting_best_effort))).
Proof.
  intros Hj Hc Hid Hin.
  pose proof (handler_reset_enqueue _ _ _ _ _ _ Hj Hc Hin) as ->.
  assert (Hg : no_ctrl Control.greeting_best_effort) by (apply no_ctrl_check; reflexivity).
  pose proof (greeting_round_trip _ _ Hid Hg) as Hrt.
  revert Hid Hrt.
  generalize (JS.lookup_last "id" kvs) as tid. intros tid Hid Hrt.
  unfold BestEffort.body_v2. rewrite Hrt.
  remember (BestEffort.run_task "" env) as RT eqn:HRT.
  destruct Hid as [-> | (t & -> & _)].
  - simpl.
    assert (L1 : JS.lookup_last "id" [("source", JStr "internal");
                                      ("prompt", JStr Control.greeting_best_effort)] = None)
      by reflexivity.
    assert (L2 : JS.lookup_last "prompt" [("source", JStr "internal");
                                          ("prompt", JStr Control.greeting_best_effort)] =
                 Some (JStr Control.greeting_best_effort)) by reflexivity.
    rewrite L1, L2. simpl.
    destruct (RT None (Some (JStr Control.greeting_best_effort))).
    split; reflexivity.
  - simpl.
    assert (L1 : JS.lookup_last "id" [("id", JStr t); ("source", JStr "internal");
                                      ("prompt", JStr Control.greeting_best_effort)] =
                 Some (JStr t)) by reflexivity.
    assert (L2 : JS.lookup_last "prompt" [("id", JStr t); ("source", JStr "internal");
                                          ("prompt", JStr Control.greeting_best_effort)] =
                 Some (JStr Control.greeting_best_effort)) by reflexivity.
    rewrite L1, L2. simpl.
    unfold template_or.
    destruct (JS.truthy (Some (JStr t))) eqn:T.
    + simpl. destruct (RT (Some (JStr t)) (Some (JStr Control.greeting_best_effort))).
      split; reflexivity.
    + simpl in T. apply negb_false_iff, String.eqb_eq in T. subst t. simpl.
      destruct (RT (Some (JStr "")) (Some (JStr Control.greeting_best_effort))).
      split; reflexivity.
Qed.

Lemma reset_greeting_dispatched_best_effort_witness :
  trace (BestEffort.body_v2 quiet_env
           (JSON_stringify (Control.greeting_payload None Control.greeting_best_effort))) =
    Log ("Received message: " ++
         JSON_stringify (Control.greeting_payload None Control.greeting_best_effort)) ::
    Log ("Processing task " ++ "" ++ ": " ++ Control.greeting_best_effort) ::
    trace (BestEffort.run_task "" quiet_env None (Some (JStr Control.greeting_best_effort))) /\
  outcome (BestEffort.body_v2 quiet_env
             (JSON_stringify (Control.greeting_payload None Control.greeting_best_effort))) =
    outcome (BestEffort.run_task "" quiet_env None (Some (JStr Control.greeting_best_effort))).
Proof.
  apply (reset_greeting_dispatched_best_effort ok_control_env None
           (JSON_stringify (JObj [("command", JStr "reset")])) [("command", JStr "reset")]).
  - vm_compute; reflexivity.
  - reflexivity.
  - left. reflexivity.
  - vm_compute. intuition.
Defined.
